(** * Schema inference from a data frame: table_inference_tools.py

    A shallow embedding of the class [TableInferenceTools]: the type
    classifier [_infer_sqlalchemy_dtype], the schema builder
    [get_table_schema] / [_create_table_schema], and the constructor
    [__init__].  Python's mutable instance, the tables registered in the
    instance's [MetaData] and the standard output are threaded through a
    small state-and-exception monad. *)

From Stdlib Require Import ZArith.
From stdpp Require Import base option list strings gmap.

Open Scope string_scope.

(** ** Values *)

(** The types imported from [sqlalchemy.types] (line 22).  [TIMESTAMP] and
    [Float] are the two that the classifier instantiates with an argument. *)
Inductive SqlType : Type :=
  | TIMESTAMP (timezone : bool)
  | BigInteger
  | Boolean
  | Date
  | DateTime
  | Float (precision : Z)
  | Integer
  | SmallInteger
  | Text
  | Time.

#[global] Instance SqlType_eq_dec : EqDecision SqlType.
Proof. solve_decision. Defined.

(** The spec's names for the two instantiated types. *)
Definition TimestampWithTimezone : SqlType := TIMESTAMP true.

(** The exceptions that the modelled statements can raise. *)
Inductive exn : Type :=
  | NameError (name : string)
  | ValueError (msg : string)
  | KeyError (key : string)
  | TypeError (msg : string)
  | AttributeError (attribute : string)
  | ArgumentError (msg : string)
  | DuplicateColumnError (column table : string).

(** The spec's error taxonomy has one name for the two [ValueError]s of the
    classifier (lines 116 and 128). *)
Definition UnsupportedTypeError (msg : string) : exn := ValueError msg.

Inductive result (A : Type) : Type :=
  | Ok (a : A)
  | Raise (e : exn).
Arguments Ok {A} a.
Arguments Raise {A} e.

(** A pandas column as the classifier observes it.
    - [infer_dtype] is what [pd_api.infer_dtype(col)] answers for it;
    - [dtype_name] is [col.dtype.name];
    - [dtype_eq_float32] is the comparison [col.dtype == "float32"] of the
      dtype object itself, which the name does not decide: a float32 dtype
      in the other byte order is named [float32] and compares unequal;
    - [dt_tz] is the access [col.dt.tz]: [None] when the access raises
      [AttributeError], otherwise the time zone found there, if any;
    - [attr_tz] is [getattr(col, "tz", None)]. *)
Record Series : Type := {
  infer_dtype : string;
  dtype_name : string;
  dtype_eq_float32 : bool;
  dt_tz : option (option string);
  attr_tz : option string
}.

(** ** Python dictionaries

    A [dict] keeps its keys in insertion order; assigning to a key that is
    present keeps the key's position. *)
Section Dict.
Context {V : Type}.

Fixpoint dict_set (k : string) (v : V) (d : list (string * V))
  : list (string * V) :=
  match d with
  | [] => [(k, v)]
  | (k', v') :: rest =>
      if String.eqb k' k then (k, v) :: rest
      else (k', v') :: dict_set k v rest
  end.

Fixpoint dict_get (k : string) (d : list (string * V)) : option V :=
  match d with
  | [] => None
  | (k', v') :: rest => if String.eqb k' k then Some v' else dict_get k rest
  end.

Definition dict_keys (d : list (string * V)) : list string := d.*1.
End Dict.

(** A data frame: its labelled columns in declaration order.  [df.columns]
    is [df_columns]; [df[colname]] is [getitem], the column that carries
    the label (labels are unique within a frame, see [NoDup] below). *)
Definition DataFrame : Type := list (string * Series).

Definition df_columns (df : DataFrame) : list string := dict_keys df.

Definition getitem (df : DataFrame) (colname : string) : option Series :=
  dict_get colname df.

(** ** The instance and the world around it *)

(** [Column(name, type)]. *)
Abbreviation column := (string * SqlType)%type (only parsing).
Definition Column (name : string) (ty : SqlType) : column := (name, ty).

(** A [Table] object is shared between the [MetaData] that registers it and
    whoever holds it, so it is a reference: the key under which the
    [MetaData] of the instance keeps the table's columns. *)
Abbreviation TableRef := string (only parsing).

Record TableInferenceTools : Type := {
  data : option DataFrame;
  column_type_map : list (string * SqlType);
  pd_api_dtype_map : list (string * string);
  table_name : option string;
  table_schema : option TableRef;
  metadata : gmap string (list column)
}.

Record world : Type := {
  self : TableInferenceTools;
  stdout : list string
}.

(** ** State and exceptions *)

Definition M (A : Type) : Type := world -> world * result A.

Definition ret {A} (a : A) : M A := fun w => (w, Ok a).

Definition raise {A} (e : exn) : M A := fun w => (w, Raise e).

Definition bind {A B} (m : M A) (f : A -> M B) : M B :=
  fun w =>
    match m w with
    | (w', Ok a) => f a w'
    | (w', Raise e) => (w', Raise e)
    end.

Notation "x <- m ;; k" := (bind m (fun x => k))
  (at level 100, m at next level, k at level 200, right associativity).
Notation "m ;;; k" := (bind m (fun _ => k))
  (at level 100, k at level 200, right associativity).

Definition get_self : M TableInferenceTools := fun w => (w, Ok (self w)).

Definition modify_self (f : TableInferenceTools -> TableInferenceTools)
  : M unit :=
  fun w => ({| self := f (self w); stdout := stdout w |}, Ok tt).

Definition print (line : string) : M unit :=
  fun w => ({| self := self w; stdout := (stdout w ++ [line])%list |}, Ok tt).

Fixpoint for_each {A} (xs : list A) (body : A -> M unit) : M unit :=
  match xs with
  | [] => ret tt
  | x :: rest => body x ;;; for_each rest body
  end.

(** Attribute assignments [self.f = v]. *)
Definition set_data (df : DataFrame) (s : TableInferenceTools) :=
  {| data := Some df;
     column_type_map := column_type_map s;
     pd_api_dtype_map := pd_api_dtype_map s;
     table_name := table_name s;
     table_schema := table_schema s;
     metadata := metadata s |}.

Definition set_table_name (n : string) (s : TableInferenceTools) :=
  {| data := data s;
     column_type_map := column_type_map s;
     pd_api_dtype_map := pd_api_dtype_map s;
     table_name := Some n;
     table_schema := table_schema s;
     metadata := metadata s |}.

Definition set_column_type_map (m : list (string * SqlType))
    (s : TableInferenceTools) :=
  {| data := data s;
     column_type_map := m;
     pd_api_dtype_map := pd_api_dtype_map s;
     table_name := table_name s;
     table_schema := table_schema s;
     metadata := metadata s |}.

Definition set_pd_api_dtype_map (m : list (string * string))
    (s : TableInferenceTools) :=
  {| data := data s;
     column_type_map := column_type_map s;
     pd_api_dtype_map := m;
     table_name := table_name s;
     table_schema := table_schema s;
     metadata := metadata s |}.

Definition set_table_schema (t : TableRef) (s : TableInferenceTools) :=
  {| data := data s;
     column_type_map := column_type_map s;
     pd_api_dtype_map := pd_api_dtype_map s;
     table_name := table_name s;
     table_schema := Some t;
     metadata := metadata s |}.

Definition set_metadata (m : gmap string (list column))
    (s : TableInferenceTools) :=
  {| data := data s;
     column_type_map := column_type_map s;
     pd_api_dtype_map := pd_api_dtype_map s;
     table_name := table_name s;
     table_schema := table_schema s;
     metadata := m |}.

(** ** Strings *)

(** [str.lower()] on the ASCII range, which is where dtype names live. *)
Definition lower_ascii (c : Ascii.ascii) : Ascii.ascii :=
  let n := Ascii.nat_of_ascii c in
  if (65 <=? n)%nat && (n <=? 90)%nat then Ascii.ascii_of_nat (n + 32) else c.

Fixpoint lower (s : string) : string :=
  match s with
  | EmptyString => EmptyString
  | String c rest => String (lower_ascii c) (lower rest)
  end.

(** [x in (a, b, ...)]. *)
Definition str_in (x : string) (xs : list string) : bool :=
  existsb (String.eqb x) xs.

(** ** The type classifier (lines 61-130) *)

(** The [match pd_api_type] statement, lines 87-130. *)
Definition match_pd_api_type (pd_api_type : string) (col : Series)
  : M SqlType :=
  if String.eqb pd_api_type "datetime64" || String.eqb pd_api_type "datetime"
  then
    match dt_tz col with
    | Some (Some _) => ret (TIMESTAMP true)
    | Some None => ret DateTime
    | None =>
        match attr_tz col with
        | Some _ => ret (TIMESTAMP true)
        | None => ret DateTime
        end
    end
  else if String.eqb pd_api_type "timedelta64" then
    print "'timedelta' type is unsupported; will be written as int value to db" ;;;
    ret BigInteger
  else if String.eqb pd_api_type "floating" then
    if dtype_eq_float32 col
    then ret (Float 23)
    else ret (Float 53)
  else if String.eqb pd_api_type "integer" then
    if str_in (lower (dtype_name col)) ["int8"; "uint8"; "int16"]
    then ret SmallInteger
    else if str_in (lower (dtype_name col)) ["uint16"; "int32"]
    then ret Integer
    else if String.eqb (lower (dtype_name col)) "uint64"
    then raise (ValueError "Unsigned 64 bit integer datatype is not supported")
    else ret BigInteger
  else if String.eqb pd_api_type "boolean" then ret Boolean
  else if String.eqb pd_api_type "date" then ret Date
  else if String.eqb pd_api_type "time" then ret Time
  else if String.eqb pd_api_type "complex" then
    raise (ValueError "Complex datatypes not supported")
  else ret Text.

(** [col = self.data[colname]]: subscripting [None] is a [TypeError], a
    label that the frame does not have is a [KeyError]. *)
Definition self_data_getitem (colname : string) : M Series :=
  s <- get_self ;;
  match data s with
  | None => raise (TypeError "'NoneType' object is not subscriptable")
  | Some df =>
      match getitem df colname with
      | None => raise (KeyError colname)
      | Some col => ret col
      end
  end.

Definition _infer_sqlalchemy_dtype (colname : string) : M SqlType :=
  col <- self_data_getitem colname ;;
  let pd_api_type := infer_dtype col in
  modify_self (fun s =>
    set_pd_api_dtype_map (dict_set colname pd_api_type (pd_api_dtype_map s)) s) ;;;
  match_pd_api_type pd_api_type col.

(** Line 50, the body of the loop over [self.data.columns]: the right-hand
    side runs first, then the assignment into [column_type_map]. *)
Definition infer_and_store (colname : string) : M unit :=
  ty <- _infer_sqlalchemy_dtype colname ;;
  modify_self (fun s =>
    set_column_type_map (dict_set colname ty (column_type_map s)) s).

(** ** sqlalchemy: MetaData, Table, append_column

    The three library calls of the schema builder.  A [MetaData] keeps the
    tables created against it under their names.  [Table(name, metadata)]
    with no further argument hands back the table already registered under
    [name] when there is one, with the columns it has, and otherwise
    registers a new table without columns.

    [Column(name, type)] takes any name.  [append_column] first refuses a
    column whose name is blank, with [ArgumentError], and otherwise adds
    the column at the end.  For a column whose name the
    table already has, the library's releases differ when
    [replace_existing] is left at its default as at line 59: the 1.4 series
    replaces the column where it stands, the 2.x series raises
    [DuplicateColumnError].  The development is parametric in this
    choice. *)
Inductive duplicate_policy : Type :=
  | replace_existing
  | reject_duplicate.

Definition MetaData : gmap string (list column) := ∅.

Definition blank_name : string :=
  "Column must be constructed with a non-blank name or assign a non-blank .name before adding to a Table.".

Section Builder.
Variable on_duplicate : duplicate_policy.

Definition Table (name : string) : M TableRef :=
  s <- get_self ;;
  match metadata s !! name with
  | Some _ => ret name
  | None =>
      modify_self (fun s => set_metadata (<[name := []]> (metadata s)) s) ;;;
      ret name
  end.

Definition append_column (t : TableRef) (c : column) : M unit :=
  if String.eqb c.1 EmptyString then raise (ArgumentError blank_name) else
  s <- get_self ;;
  match metadata s !! t with
  | None => raise (KeyError t)
  | Some cols =>
      match dict_get c.1 cols, on_duplicate with
      | Some _, reject_duplicate => raise (DuplicateColumnError c.1 t)
      | _, _ =>
          modify_self (fun s =>
            set_metadata (<[t := dict_set c.1 c.2 cols]> (metadata s)) s)
      end
  end.

(** ** The schema builder (lines 37-59) *)

(** Line 59, the body of the loop over the keys of [column_type_map]. *)
Definition append_mapped_column (col : string) : M unit :=
  s <- get_self ;;
  match table_schema s with
  | None => raise (AttributeError "append_column")
  | Some t =>
      match dict_get col (column_type_map s) with
      | None => raise (KeyError col)
      | Some ty => append_column t (Column col ty)
      end
  end.

Definition _create_table_schema (table_name : string) : M unit :=
  t <- Table table_name ;;
  modify_self (set_table_schema t) ;;;
  s <- get_self ;;
  for_each (dict_keys (column_type_map s)) append_mapped_column.

Definition get_table_schema (df : DataFrame) (table_name : string)
  : M (option TableRef) :=
  modify_self (set_data df) ;;;
  modify_self (set_table_name table_name) ;;;
  for_each (df_columns df) infer_and_store ;;;
  _create_table_schema table_name ;;;
  s <- get_self ;;
  ret (table_schema s).
End Builder.

(** The columns of a table as the world has them. *)
Definition table_columns (w : world) (t : option TableRef) : list column :=
  match t with
  | None => []
  | Some name => default [] (metadata (self w) !! name)
  end.

(** ** The constructor (lines 19-35) *)

(** The names that the module binds at its top level: the imports of lines
    19-22, [DialectType], the class, and the attributes every module has. *)
Definition module_globals : list string :=
  [ "pd_api"; "pd"; "Table"; "Column"; "MetaData";
    "TIMESTAMP"; "BigInteger"; "Boolean"; "Date"; "DateTime"; "Float";
    "Integer"; "SmallInteger"; "Text"; "Time";
    "DialectType"; "TableInferenceTools";
    "__name__"; "__doc__"; "__package__"; "__loader__"; "__spec__";
    "__file__"; "__cached__"; "__builtins__" ].

(** A free name in a method body is looked up in the module's globals and
    then among the builtins. *)
Definition load_global (builtins : list string) (name : string)
  : result unit :=
  if bool_decide (name ∈ (module_globals ++ builtins)%list)
  then Ok tt
  else Raise (NameError name).

(** The attributes assigned at lines 30-35. *)
Definition fresh_instance : TableInferenceTools :=
  {| data := None;
     column_type_map := [];
     pd_api_dtype_map := [];
     table_name := None;
     table_schema := None;
     metadata := MetaData |}.

(** Line 28 evaluates the name [logging] before anything is assigned; the
    [logger] attribute it would set is read nowhere and is left out of the
    instance. *)
Definition __init__ (builtins : list string) : result TableInferenceTools :=
  match load_global builtins "logging" with
  | Raise e => Raise e
  | Ok _ => Ok fresh_instance
  end.

Definition fresh_world : world := {| self := fresh_instance; stdout := [] |}.

(** A caller that constructs an instance and asks it for a schema. *)
Definition construct_and_get_table_schema (on_duplicate : duplicate_policy)
    (builtins : list string) (df : DataFrame) (table_name : string)
  : list string * result (option TableRef) :=
  match __init__ builtins with
  | Raise e => ([], Raise e)
  | Ok s =>
      let '(w, r) :=
        get_table_schema on_duplicate df table_name
          {| self := s; stdout := [] |} in
      (stdout w, r)
  end.


(** ** Reading the classifier off its runs *)

(** What the [match] statement answers for a column, and what it prints:
    neither depends on the world it runs in ([match_pd_api_type_run]). *)
Definition classify (col : Series) : result SqlType :=
  (match_pd_api_type (infer_dtype col) col fresh_world).2.

Definition warnings (col : Series) : list string :=
  stdout (match_pd_api_type (infer_dtype col) col fresh_world).1.

(** A column carries time-zone information when [col.dt.tz] is there and
    not [None], or, [col.dt] being unavailable, when the column's own [tz]
    attribute is there and not [None]. *)
Definition carries_timezone (col : Series) : bool :=
  match dt_tz col with
  | Some tz => bool_decide (is_Some tz)
  | None => bool_decide (is_Some (attr_tz col))
  end.

(** The columns that the classifier has no type for. *)
Definition rejected (col : Series) : Prop :=
  infer_dtype col = "complex" \/
  (infer_dtype col = "integer" /\ lower (dtype_name col) = "uint64").

#[global] Instance rejected_dec col : Decision (rejected col).
Proof. unfold rejected. apply _. Defined.

(** The element kinds that have a [case] of their own. *)
Definition recognized_kinds : list string :=
  [ "datetime64"; "datetime"; "timedelta64"; "floating"; "integer";
    "boolean"; "date"; "time"; "complex" ].

(** The world of an instance that is working on [df]. *)
Definition working_on (df : DataFrame) (w : world) : Prop :=
  data (self w) = Some df.

(** [tys] lists, column by column and in order, the types that the
    classifier has for the columns [l]. *)
Definition typed_as (l : DataFrame) (tys : list column) : Prop :=
  Forall2 (fun x c => c.1 = x.1 /\ classify x.2 = Ok c.2) l tys.

(** The element kinds sniffed for the columns [l]. *)
Definition sniffed_kinds (l : DataFrame) : list (string * string) :=
  map (fun x => (x.1, infer_dtype x.2)) l.

(** A run of assignments [d[k] = v], in order. *)
Definition dict_update {V} (d l : list (string * V)) : list (string * V) :=
  foldl (fun d kv => dict_set kv.1 kv.2 d) d l.

(** What holds of every instance that [get_table_schema] has worked on:
    the keys of [column_type_map] are distinct, and the column names of
    every registered table are an initial segment of them. *)
Definition wf (s : TableInferenceTools) : Prop :=
  NoDup (dict_keys (column_type_map s)) /\
  forall t cols,
    metadata s !! t = Some cols ->
    dict_keys cols `prefix_of` dict_keys (column_type_map s).

(** The loop over the columns leaves the registered tables alone and only
    adds keys to [column_type_map] and to [pd_api_dtype_map], whatever the
    frame and however the loop ends. *)
Definition steady (w w' : world) : Prop :=
  metadata (self w') = metadata (self w) /\
  dict_keys (column_type_map (self w))
    `prefix_of` dict_keys (column_type_map (self w')) /\
  dict_keys (pd_api_dtype_map (self w))
    `prefix_of` dict_keys (pd_api_dtype_map (self w')) /\
  (NoDup (dict_keys (column_type_map (self w))) ->
   NoDup (dict_keys (column_type_map (self w')))).

(** The world once a call [get_table_schema df name] has gone through, the
    classifier having answered [tys] for the columns of [df]. *)
Definition after_success (df : DataFrame) (tys : list column) (name : string)
    (w : world) : world :=
  let ctm := dict_update (column_type_map (self w)) tys in
  {| self :=
       {| data := Some df;
          column_type_map := ctm;
          pd_api_dtype_map :=
            dict_update (pd_api_dtype_map (self w)) (sniffed_kinds df);
          table_name := Some name;
          table_schema := Some name;
          metadata := <[name := ctm]> (metadata (self w)) |};
     stdout := (stdout w ++ concat (map (fun x => warnings x.2) df))%list |}.

(** ** Sample columns and frames *)

(** A column of a dtype in numpy's native byte order, which compares equal
    to its own name. *)
Definition series (kind dtype : string) : Series :=
  {| infer_dtype := kind; dtype_name := dtype;
     dtype_eq_float32 := String.eqb dtype "float32";
     dt_tz := None; attr_tz := None |}.

Definition naive_datetime : Series :=
  {| infer_dtype := "datetime64"; dtype_name := "datetime64[ns]";
     dtype_eq_float32 := false;
     dt_tz := Some None; attr_tz := None |}.

Definition aware_datetime : Series :=
  {| infer_dtype := "datetime64"; dtype_name := "datetime64[ns, UTC]";
     dtype_eq_float32 := false;
     dt_tz := Some (Some "UTC"); attr_tz := None |}.

(** A column of 32-bit floats stored in the other byte order: the dtype is
    named [float32] and does not compare equal to ["float32"]. *)
Definition byte_swapped_float32 : Series :=
  {| infer_dtype := "floating"; dtype_name := "float32";
     dtype_eq_float32 := false;
     dt_tz := None; attr_tz := None |}.

Definition sample_frame : DataFrame :=
  [ ("id", series "integer" "int32");
    ("ts", naive_datetime);
    ("amount", series "floating" "float32");
    ("flag", series "boolean" "bool");
    ("elapsed", series "timedelta64" "timedelta64[ns]");
    ("z", series "complex" "complex128");
    ("big", series "integer" "UInt64");
    ("ts_utc", aware_datetime);
    ("note", series "string" "object") ].

(** The two frames of the spec's round-trip scenario, and a frame for a
    later call on the same instance. *)
Definition accepted_frame : DataFrame :=
  [ ("id", series "integer" "int32");
    ("ts", naive_datetime);
    ("amount", series "floating" "float32");
    ("flag", series "boolean" "bool") ].

Definition id_frame : DataFrame :=
  [ ("id", series "integer" "int32") ].

Definition unsigned_frame : DataFrame :=
  [ ("id", series "integer" "uint64") ].

Definition later_frame : DataFrame :=
  [ ("amount", series "floating" "float64");
    ("note", series "string" "object") ].

(** A frame with two [timedelta64] columns. *)
Definition elapsed_frame : DataFrame :=
  [ ("start", naive_datetime);
    ("took", series "timedelta64" "timedelta64[ns]");
    ("flag", series "boolean" "bool");
    ("wait", series "timedelta64" "timedelta64[ns]") ].

(** The world that a first call, with [accepted_frame] and the table name
    [first], leaves of a new instance ([used_world_reached]). *)
Definition used_world : world :=
  after_success accepted_frame
    [("id", Integer); ("ts", DateTime); ("amount", Float 23);
     ("flag", Boolean)] "first" fresh_world.

Definition swapped_frame : DataFrame :=
  [ ("reading", byte_swapped_float32) ].

Definition swapped_world : world :=
  {| self := set_data swapped_frame fresh_instance; stdout := [] |}.

Definition sample_world : world :=
  {| self := set_data sample_frame fresh_instance; stdout := [] |}.

(** ** Callers and frames *)

(** The line that line 101 prints. *)
Definition timedelta_warning : string :=
  "'timedelta' type is unsupported; will be written as int value to db".

Definition is_timedelta (col : Series) : bool :=
  String.eqb (infer_dtype col) "timedelta64".

(** What the classifier and the loop over the columns leave alone: the
    attributes that only [get_table_schema] and [_create_table_schema]
    assign. *)
Definition builder_fields_kept (w w' : world) : Prop :=
  data (self w') = data (self w) /\
  table_name (self w') = table_name (self w) /\
  table_schema (self w') = table_schema (self w) /\
  metadata (self w') = metadata (self w).

(** What the loop over the type map leaves alone when the instance holds
    the table [t]: everything but the columns of [t]. *)
Definition only_table_changed (t : string) (w w' : world) : Prop :=
  data (self w') = data (self w) /\
  table_name (self w') = table_name (self w) /\
  column_type_map (self w') = column_type_map (self w) /\
  pd_api_dtype_map (self w') = pd_api_dtype_map (self w) /\
  table_schema (self w') = table_schema (self w) /\
  stdout w' = stdout w /\
  forall n, n <> t -> metadata (self w') !! n = metadata (self w) !! n.

(** A caller that makes the calls [calls] one after the other on one
    instance and carries on when a call raises. *)
Fixpoint run_calls (p : duplicate_policy) (calls : list (DataFrame * string))
    (w : world) : world :=
  match calls with
  | [] => w
  | (df, name) :: rest => run_calls p rest (get_table_schema p df name w).1
  end.

(** ** Dictionaries *)

Section DictFacts.
Context {V : Type}.
Implicit Types (d : list (string * V)) (k : string) (v : V).

Lemma dict_get_None k d : dict_get k d = None <-> k ∉ dict_keys d.
Proof.
  induction d as [|[k' v'] d IH]; simpl.
  - split; [intros _; apply not_elem_of_nil | done].
  - destruct (String.eqb_spec k' k) as [->|Hne].
    + split; [done | intros Hk; exfalso; apply Hk; left].
    + rewrite IH, not_elem_of_cons.
      split; [intros ?; split; [congruence | done] | by intros [_ ?]].
Qed.

Lemma dict_get_Some_elem k v d : dict_get k d = Some v -> (k, v) ∈ d.
Proof.
  induction d as [|[k' v'] d IH]; simpl; [done|].
  destruct (String.eqb_spec k' k) as [->|Hne].
  - intros [= ->]. left.
  - intros H. right. auto.
Qed.

Lemma dict_get_elem k v d :
  NoDup (dict_keys d) -> (k, v) ∈ d -> dict_get k d = Some v.
Proof.
  induction d as [|[k' v'] d IH]; simpl; intros Hnd Hin.
  - by apply elem_of_nil in Hin.
  - apply NoDup_cons in Hnd as [Hk' Hnd].
    apply elem_of_cons in Hin as [[= <- <-]|Hin].
    + by rewrite String.eqb_refl.
    + destruct (String.eqb_spec k' k) as [->|Hne]; [|auto].
      exfalso. apply Hk'. change k with ((k, v).1).
      by apply list_elem_of_fmap_2.
Qed.

Lemma dict_set_absent k v d :
  k ∉ dict_keys d -> dict_set k v d = (d ++ [(k, v)])%list.
Proof.
  induction d as [|[k' v'] d IH]; simpl; [done|].
  rewrite not_elem_of_cons. intros [Hne Hnin].
  destruct (String.eqb_spec k' k) as [->|_]; [done|].
  by rewrite IH.
Qed.

Lemma dict_set_same k v d : dict_get k d = Some v -> dict_set k v d = d.
Proof.
  induction d as [|[k' v'] d IH]; simpl; [done|].
  destruct (String.eqb_spec k' k) as [->|_].
  - by intros [= ->].
  - intros H. by rewrite IH.
Qed.

Lemma dict_keys_set_present k v d :
  k ∈ dict_keys d -> dict_keys (dict_set k v d) = dict_keys d.
Proof.
  induction d as [|[k' v'] d IH]; simpl.
  - intros H. by apply elem_of_nil in H.
  - destruct (String.eqb_spec k' k) as [->|Hne]; [done|].
    intros [?|Hin]%elem_of_cons; [done|].
    change (k' :: dict_keys (dict_set k v d) = k' :: dict_keys d).
    by rewrite IH.
Qed.

Lemma dict_get_set k k' v d :
  dict_get k' (dict_set k v d) = if String.eqb k k' then Some v else dict_get k' d.
Proof.
  induction d as [|[k0 v0] d IH]; simpl.
  - done.
  - destruct (String.eqb_spec k0 k) as [->|Hne]; simpl.
    + by destruct (String.eqb_spec k k').
    + rewrite IH. destruct (String.eqb_spec k0 k') as [->|?]; [|done].
      by destruct (String.eqb_spec k k') as [->|?].
Qed.
End DictFacts.

(** ** The classifier *)

Lemma str_in_spec x xs : str_in x xs = true <-> x ∈ xs.
Proof.
  unfold str_in. rewrite existsb_exists. split.
  - intros (y & Hin & ->%String.eqb_eq). by apply list_elem_of_In.
  - intros Hin. exists x. split; [by apply list_elem_of_In | apply String.eqb_refl].
Qed.

Lemma str_in_false x xs : str_in x xs = false <-> x ∉ xs.
Proof.
  rewrite <- str_in_spec. destruct (str_in x xs); split; congruence.
Qed.

Lemma match_pd_api_type_run col w :
  match_pd_api_type (infer_dtype col) col w =
    ({| self := self w; stdout := (stdout w ++ warnings col)%list |},
     classify col).
Proof.
  unfold classify, warnings, match_pd_api_type.
  destruct w as [s out].
  repeat case_match; simpl; by rewrite ?app_nil_r.
Qed.

Lemma infer_run w df colname col :
  working_on df w ->
  getitem df colname = Some col ->
  _infer_sqlalchemy_dtype colname w =
    ({| self :=
          set_pd_api_dtype_map
            (dict_set colname (infer_dtype col) (pd_api_dtype_map (self w)))
            (self w);
        stdout := (stdout w ++ warnings col)%list |},
     classify col).
Proof.
  intros Hdf Hcol. unfold working_on in Hdf.
  unfold _infer_sqlalchemy_dtype, self_data_getitem, bind, get_self, modify_self.
  rewrite Hdf, Hcol. simpl. by rewrite match_pd_api_type_run.
Qed.

Lemma classify_integer col :
  infer_dtype col = "integer" ->
  classify col =
    if str_in (lower (dtype_name col)) ["int8"; "uint8"; "int16"]
    then Ok SmallInteger
    else if str_in (lower (dtype_name col)) ["uint16"; "int32"]
    then Ok Integer
    else if String.eqb (lower (dtype_name col)) "uint64"
    then Raise (ValueError "Unsigned 64 bit integer datatype is not supported")
    else Ok BigInteger.
Proof.
  intros Hk. unfold classify, match_pd_api_type. rewrite Hk. simpl.
  by repeat case_match.
Qed.

Lemma classify_floating col :
  infer_dtype col = "floating" ->
  classify col =
    if dtype_eq_float32 col
    then Ok (Float 23) else Ok (Float 53).
Proof.
  intros Hk. unfold classify, match_pd_api_type. rewrite Hk. simpl.
  by case_match.
Qed.

Lemma classify_datetime col :
  infer_dtype col = "datetime64" \/ infer_dtype col = "datetime" ->
  classify col =
    Ok (if carries_timezone col then TimestampWithTimezone else DateTime)
  /\ warnings col = [].
Proof.
  intros Hk. unfold classify, warnings, match_pd_api_type, carries_timezone.
  destruct Hk as [-> | ->]; simpl;
    destruct (dt_tz col) as [[tz|]|]; simpl; try done;
    destruct (attr_tz col); done.
Qed.

Lemma classify_timedelta col :
  infer_dtype col = "timedelta64" ->
  classify col = Ok BigInteger /\
  warnings col =
    ["'timedelta' type is unsupported; will be written as int value to db"].
Proof.
  intros Hk. unfold classify, warnings, match_pd_api_type. by rewrite Hk.
Qed.

Lemma classify_complex col :
  infer_dtype col = "complex" ->
  classify col = Raise (ValueError "Complex datatypes not supported").
Proof.
  intros Hk. unfold classify, match_pd_api_type. by rewrite Hk.
Qed.

Lemma classify_unrecognized col :
  infer_dtype col ∉ recognized_kinds -> classify col = Ok Text.
Proof.
  intros Hk. unfold recognized_kinds in Hk.
  repeat (apply not_elem_of_cons in Hk as [? Hk]).
  unfold classify, match_pd_api_type.
  repeat match goal with
  | H : infer_dtype col <> ?s |- _ =>
      apply String.eqb_neq in H; rewrite H; clear H
  end.
  done.
Qed.

(** The classifier has no type for a column exactly when the column is
    [rejected]. *)
Lemma classify_raises_iff col :
  (exists e, classify col = Raise e) <-> rejected col.
Proof.
  unfold rejected. split.
  - intros [e He].
    destruct (decide (infer_dtype col = "complex")) as [|Hc]; [by left|].
    destruct (decide (infer_dtype col = "integer")) as [Hi|Hi].
    + right. split; [done|]. rewrite (classify_integer _ Hi) in He.
      repeat case_match; try done. by apply String.eqb_eq.
    + exfalso. revert He. unfold classify, match_pd_api_type.
      apply String.eqb_neq in Hc, Hi. rewrite Hc, Hi.
      repeat case_match; done.
  - intros [Hc | [Hi Hw]].
    + eexists. by apply classify_complex.
    + eexists. rewrite (classify_integer _ Hi), Hw. done.
Qed.

Lemma classify_accepts col :
  ~ rejected col -> exists ty, classify col = Ok ty.
Proof.
  intros Hnr. destruct (classify col) as [ty|e] eqn:Hc; [by exists ty|].
  exfalso. apply Hnr, classify_raises_iff. by exists e.
Qed.

Lemma filter_agree {A} (P1 P2 : A -> Prop)
    `{!forall x, Decision (P1 x), !forall x, Decision (P2 x)} (l : list A) :
  (forall x, x ∈ l -> P1 x <-> P2 x) -> filter P1 l = filter P2 l.
Proof.
  induction l as [|a l IH]; intros Hiff; [done|].
  assert (filter P1 l = filter P2 l) as Hl.
  { apply IH. intros x Hx. apply Hiff. by right. }
  destruct (decide (P1 a)) as [Ha|Ha].
  - rewrite !filter_cons_True; [by rewrite Hl | | done].
    apply Hiff; [left | done].
  - rewrite !filter_cons_False; [done | | done].
    intros Ha'. apply Ha, Hiff; [left | done].
Qed.

Section DictUpdateFacts.
Context {V : Type}.
Implicit Types (d l : list (string * V)) (k : string) (v : V).

Lemma dict_keys_app d l :
  dict_keys (d ++ l)%list = (dict_keys d ++ dict_keys l)%list.
Proof. apply fmap_app. Qed.

Lemma dict_keys_cons k v l : dict_keys ((k, v) :: l) = k :: dict_keys l.
Proof. done. Qed.

Lemma dict_keys_set_absent k v d :
  k ∉ dict_keys d -> dict_keys (dict_set k v d) = (dict_keys d ++ [k])%list.
Proof. intros H. by rewrite dict_set_absent, dict_keys_app. Qed.

Lemma dict_keys_set_prefix k v d :
  dict_keys d `prefix_of` dict_keys (dict_set k v d).
Proof.
  destruct (decide (k ∈ dict_keys d)) as [Hin|Hnin].
  - by rewrite dict_keys_set_present.
  - rewrite dict_keys_set_absent by done. by apply prefix_app_r.
Qed.

Lemma dict_keys_set_NoDup k v d :
  NoDup (dict_keys d) -> NoDup (dict_keys (dict_set k v d)).
Proof.
  intros Hnd. destruct (decide (k ∈ dict_keys d)) as [Hin|Hnin].
  - by rewrite dict_keys_set_present.
  - rewrite dict_keys_set_absent by done.
    apply NoDup_app. split; [done|]. split; [|apply NoDup_singleton].
    intros x Hx ->%list_elem_of_singleton. done.
Qed.

Lemma dict_set_app_r k v d l :
  k ∉ dict_keys d -> dict_set k v (d ++ l)%list = (d ++ dict_set k v l)%list.
Proof.
  induction d as [|[k' v'] d IH]; simpl; [done|].
  rewrite not_elem_of_cons. intros [Hne Hnin].
  destruct (String.eqb_spec k' k) as [->|_]; [done|].
  by rewrite IH.
Qed.

Lemma dict_update_cons d kv l :
  dict_update d (kv :: l) = dict_update (dict_set kv.1 kv.2 d) l.
Proof. done. Qed.

Lemma dict_update_app d l1 l2 :
  dict_update d (l1 ++ l2)%list = dict_update (dict_update d l1) l2.
Proof. apply foldl_app. Qed.

Lemma dict_update_absent d l :
  NoDup (dict_keys d ++ dict_keys l)%list -> dict_update d l = (d ++ l)%list.
Proof.
  revert d. induction l as [|[k v] l IH]; intros d Hnd.
  - by rewrite app_nil_r.
  - rewrite dict_update_cons. simpl.
    assert (k ∉ dict_keys d) as Hk.
    { apply NoDup_app in Hnd as (_ & Hdisj & _).
      intros Hin. apply (Hdisj k Hin). left. }
    rewrite dict_set_absent by done.
    rewrite IH.
    + by rewrite <- app_assoc.
    + rewrite dict_keys_app. simpl. rewrite <- app_assoc. done.
Qed.

Lemma dict_update_same d l :
  (forall x, x ∈ l -> dict_get x.1 d = Some x.2) -> dict_update d l = d.
Proof.
  induction l as [|kv l IH]; intros Hl; [done|].
  rewrite dict_update_cons, dict_set_same.
  - apply IH. intros x Hx. apply Hl. by right.
  - apply Hl. left.
Qed.

(** Re-assigning the first keys of a dictionary, then appending the
    rest: the outcome is the assigned entries themselves. *)
Lemma dict_update_over done_ todo l :
  dict_keys todo `prefix_of` dict_keys l ->
  NoDup (dict_keys done_ ++ dict_keys l)%list ->
  dict_update (done_ ++ todo)%list l = (done_ ++ l)%list.
Proof.
  revert done_ todo. induction l as [|[k v] l IH]; intros done_ todo Hpre Hnd.
  - apply prefix_nil_inv in Hpre. apply fmap_nil_inv in Hpre as ->.
    done.
  - rewrite dict_update_cons. simpl.
    assert (k ∉ dict_keys done_) as Hk.
    { apply NoDup_app in Hnd as (_ & Hdisj & _).
      intros Hin. apply (Hdisj k Hin). left. }
    assert (NoDup (dict_keys (done_ ++ [(k, v)]) ++ dict_keys l)%list) as Hnd'.
    { rewrite dict_keys_app. simpl. by rewrite <- app_assoc. }
    rewrite dict_set_app_r by done.
    destruct todo as [|[k0 v0] todo]; simpl.
    + replace (done_ ++ [(k, v)])%list with ((done_ ++ [(k, v)]) ++ [])%list
        by apply app_nil_r.
      rewrite IH; [by rewrite <- app_assoc | apply prefix_nil | done].
    + simpl in Hpre. apply prefix_cons_inv_1 in Hpre as Hk0.
      apply prefix_cons_inv_2 in Hpre. subst k0.
      rewrite String.eqb_refl.
      replace (done_ ++ (k, v) :: todo)%list
        with ((done_ ++ [(k, v)]) ++ todo)%list by (by rewrite <- app_assoc).
      rewrite IH; [by rewrite <- app_assoc | done | done].
Qed.

Lemma dict_update_prefix d l :
  dict_keys d `prefix_of` dict_keys l ->
  NoDup (dict_keys l) ->
  dict_update d l = l.
Proof. intros Hpre Hnd. by apply (dict_update_over [] d l). Qed.

Lemma dict_keys_update_prefix d l :
  dict_keys d `prefix_of` dict_keys (dict_update d l).
Proof.
  revert d. induction l as [|kv l IH]; intros d; [done|].
  rewrite dict_update_cons. etrans; [apply dict_keys_set_prefix | apply IH].
Qed.

Lemma dict_keys_update_NoDup d l :
  NoDup (dict_keys d) -> NoDup (dict_keys (dict_update d l)).
Proof.
  revert d. induction l as [|kv l IH]; intros d Hnd; [done|].
  rewrite dict_update_cons. by apply IH, dict_keys_set_NoDup.
Qed.

Lemma dict_get_update k d l :
  NoDup (dict_keys l) ->
  dict_get k (dict_update d l) =
    match dict_get k l with
    | Some v => Some v
    | None => dict_get k d
    end.
Proof.
  revert d. induction l as [|[k' v'] l IH]; intros d Hnd; [done|].
  rewrite dict_keys_cons in Hnd. apply NoDup_cons in Hnd as [Hk' Hnd].
  rewrite dict_update_cons, IH by done. simpl.
  rewrite dict_get_set.
  destruct (String.eqb_spec k' k) as [->|Hne]; [|done].
  apply dict_get_None in Hk'. by rewrite Hk'.
Qed.

Lemma dict_keys_update d l :
  NoDup (dict_keys l) ->
  dict_keys (dict_update d l) =
    (dict_keys d ++ filter (fun k => k ∉ dict_keys d) (dict_keys l))%list.
Proof.
  revert d. induction l as [|[k v] l IH]; intros d Hnd.
  - by rewrite app_nil_r.
  - rewrite dict_keys_cons in Hnd. apply NoDup_cons in Hnd as [Hk Hnd].
    rewrite dict_update_cons, IH by done. rewrite dict_keys_cons.
    rewrite filter_cons. simpl.
    destruct (decide (k ∈ dict_keys d)) as [Hin|Hnin].
    + rewrite dict_keys_set_present by done.
      rewrite decide_False by (intros Hn; by apply Hn). done.
    + rewrite dict_keys_set_absent by done.
      rewrite decide_True by done.
      rewrite <- app_assoc. simpl. do 2 f_equal.
      apply filter_agree. intros x Hx.
      rewrite elem_of_app, list_elem_of_singleton.
      split; [tauto|]. intros Hn. intros [?| ->]; [by apply Hn|].
      by apply Hk.
Qed.
End DictUpdateFacts.

(** ** The loop over the columns (lines 49-50) *)

Lemma infer_and_store_accept df w c col ty :
  working_on df w ->
  getitem df c = Some col ->
  classify col = Ok ty ->
  infer_and_store c w =
    ({| self :=
          set_column_type_map (dict_set c ty (column_type_map (self w)))
            (set_pd_api_dtype_map
               (dict_set c (infer_dtype col) (pd_api_dtype_map (self w)))
               (self w));
        stdout := (stdout w ++ warnings col)%list |},
     Ok tt).
Proof.
  intros Hdf Hcol Hty. unfold infer_and_store, bind.
  by rewrite (infer_run w df c col Hdf Hcol), Hty.
Qed.

Lemma infer_and_store_reject df w c col e :
  working_on df w ->
  getitem df c = Some col ->
  classify col = Raise e ->
  infer_and_store c w =
    ({| self :=
          set_pd_api_dtype_map
            (dict_set c (infer_dtype col) (pd_api_dtype_map (self w)))
            (self w);
        stdout := (stdout w ++ warnings col)%list |},
     Raise e).
Proof.
  intros Hdf Hcol Hty. unfold infer_and_store, bind.
  by rewrite (infer_run w df c col Hdf Hcol), Hty.
Qed.

Lemma infer_loop_accept df l tys w :
  working_on df w ->
  (forall x, x ∈ l -> getitem df x.1 = Some x.2) ->
  typed_as l tys ->
  for_each (dict_keys l) infer_and_store w =
    ({| self :=
          set_column_type_map
            (dict_update (column_type_map (self w)) tys)
            (set_pd_api_dtype_map
               (dict_update (pd_api_dtype_map (self w)) (sniffed_kinds l))
               (self w));
        stdout := (stdout w ++ concat (map (fun x => warnings x.2) l))%list |},
     Ok tt).
Proof.
  intros Hdf Hget Hty. revert w Hdf.
  induction Hty as [|[c col] [c' ty] l tys [Hc Hcl] Hty IH]; intros w Hdf.
  - destruct w as [[] out]. simpl. by rewrite app_nil_r.
  - simpl in Hc, Hcl. subst c'.
    rewrite dict_keys_cons. simpl. unfold bind.
    rewrite (infer_and_store_accept df w c col ty); try done.
    2:{ apply (Hget (c, col)). left. }
    rewrite IH.
    + destruct w as [[] out]. simpl. by rewrite <- app_assoc.
    + intros x Hx. apply Hget. by right.
    + done.
Qed.

(** The loop stops at the first column that the classifier has no type
    for, with the classifier's exception; the table that the instance
    holds and the tables registered so far are as they were. *)
Lemma infer_loop_reject df l w :
  working_on df w ->
  (forall x, x ∈ l -> getitem df x.1 = Some x.2) ->
  Exists (fun x => rejected x.2) l ->
  exists w' e x,
    for_each (dict_keys l) infer_and_store w = (w', Raise e) /\
    x ∈ l /\ rejected x.2 /\ classify x.2 = Raise e /\
    table_schema (self w') = table_schema (self w) /\
    metadata (self w') = metadata (self w).
Proof.
  intros Hdf Hget Hex. revert w Hdf.
  induction l as [|[c col] l IH]; intros w Hdf.
  - by apply Exists_nil in Hex.
  - rewrite dict_keys_cons. simpl. unfold bind.
    assert (getitem df c = Some col) as Hcol by (apply (Hget (c, col)); left).
    destruct (classify col) as [ty|e] eqn:Hcls.
    + rewrite (infer_and_store_accept df w c col ty) by done.
      apply Exists_cons in Hex as [Hrej|Hex].
      { apply classify_raises_iff in Hrej as [e He]. simpl in He. congruence. }
      destruct (IH (fun x Hx => Hget x (list_elem_of_further _ _ _ Hx)) Hex
                  {| self :=
                       set_column_type_map
                         (dict_set c ty (column_type_map (self w)))
                         (set_pd_api_dtype_map
                            (dict_set c (infer_dtype col)
                               (pd_api_dtype_map (self w)))
                            (self w));
                     stdout := (stdout w ++ warnings col)%list |})
        as (w' & e & x & Hrun & Hx & Hrej & He & Hts & Hmd).
      { done. }
      exists w', e, x. rewrite Hrun. split; [done|].
      split; [by right|]. done.
    + rewrite (infer_and_store_reject df w c col e) by done.
      eexists _, e, (c, col). split; [done|]. split; [left|].
      split; [apply classify_raises_iff; by exists e|]. done.
Qed.

Lemma getitem_own_columns (df : DataFrame) :
  NoDup (df_columns df) -> forall x, x ∈ df -> getitem df x.1 = Some x.2.
Proof. intros Hnd [c col] Hx. by apply dict_get_elem. Qed.

Lemma typed_as_exists l :
  Forall (fun x => ~ rejected x.2) l -> exists tys, typed_as l tys.
Proof.
  induction 1 as [|[c col] l Hacc _ [tys IH]].
  - exists []. constructor.
  - destruct (classify_accepts col Hacc) as [ty Hty].
    exists ((c, ty) :: tys). by constructor.
Qed.

Lemma typed_as_keys l tys : typed_as l tys -> dict_keys tys = dict_keys l.
Proof.
  induction 1 as [|[c col] [c' ty] l tys [Hc _] _ IH]; [done|].
  rewrite !dict_keys_cons. simpl in Hc. by rewrite IH, Hc.
Qed.

Lemma typed_as_accepted l tys :
  typed_as l tys -> Forall (fun x => ~ rejected x.2) l.
Proof.
  induction 1 as [|x c l tys [_ Hc] _ IH]; constructor; [|done].
  intros [e He]%classify_raises_iff. congruence.
Qed.

Lemma typed_as_functional l tys tys' :
  typed_as l tys -> typed_as l tys' -> tys = tys'.
Proof.
  intros H. revert tys'.
  induction H as [|x [c ty] l tys [Hc Hty] _ IH]; intros tys' H';
    inversion H' as [|? [c' ty'] ? ? [Hc' Hty'] Hrest]; subst; [done|].
  simpl in *. f_equal; [|by apply IH]. congruence.
Qed.

(** ** Frames of the two loops *)

Lemma for_each_app {A} (l1 l2 : list A) (body : A -> M unit) w :
  for_each (l1 ++ l2)%list body w =
    (for_each l1 body ;;; for_each l2 body) w.
Proof.
  revert w. induction l1 as [|x l1 IH]; intros w; simpl.
  - done.
  - unfold bind. destruct (body x w) as [w1 [[]|e]]; [|done].
    rewrite IH. done.
Qed.

Lemma builder_fields_kept_refl w : builder_fields_kept w w.
Proof. by repeat split. Qed.

Lemma builder_fields_kept_trans w1 w2 w3 :
  builder_fields_kept w1 w2 -> builder_fields_kept w2 w3 ->
  builder_fields_kept w1 w3.
Proof.
  intros (? & ? & ? & ?) (? & ? & ? & ?). repeat split; congruence.
Qed.

Lemma infer_and_store_kept c w : builder_fields_kept w (infer_and_store c w).1.
Proof.
  unfold infer_and_store, _infer_sqlalchemy_dtype, self_data_getitem.
  unfold bind, get_self, modify_self. simpl.
  destruct (data (self w)) as [df|]; [|apply builder_fields_kept_refl].
  destruct (getitem df c) as [col|]; simpl; [|apply builder_fields_kept_refl].
  rewrite match_pd_api_type_run.
  destruct (classify col) as [ty|e]; by repeat split.
Qed.

Lemma infer_loop_kept l w :
  builder_fields_kept w (for_each l infer_and_store w).1.
Proof.
  revert w. induction l as [|c l IH]; intros w;
    [apply builder_fields_kept_refl|].
  simpl. unfold bind.
  pose proof (infer_and_store_kept c w) as Hc.
  destruct (infer_and_store c w) as [w1 [[]|e]]; simpl in *; [|done].
  eapply builder_fields_kept_trans; [done | apply IH].
Qed.

Lemma only_table_changed_refl t w : only_table_changed t w w.
Proof. by repeat split. Qed.

Lemma only_table_changed_trans t w1 w2 w3 :
  only_table_changed t w1 w2 -> only_table_changed t w2 w3 ->
  only_table_changed t w1 w3.
Proof.
  intros (? & ? & ? & ? & ? & ? & Hmd1) (? & ? & ? & ? & ? & ? & Hmd2).
  repeat split; try congruence.
  intros n Hn. by rewrite Hmd2, Hmd1.
Qed.

Lemma append_mapped_column_frame p t k w :
  table_schema (self w) = Some t ->
  only_table_changed t w (append_mapped_column p k w).1.
Proof.
  intros Hts.
  unfold append_mapped_column, append_column, Column, bind, get_self,
    modify_self.
  simpl. rewrite Hts.
  destruct (dict_get k (column_type_map (self w))) as [ty|]; simpl;
    [|apply only_table_changed_refl].
  destruct (String.eqb k EmptyString); simpl; [apply only_table_changed_refl|].
  destruct (metadata (self w) !! t) as [cols|]; simpl;
    [|apply only_table_changed_refl].
  destruct (dict_get k cols), p; simpl;
    try apply only_table_changed_refl;
    repeat split; simpl; try done;
    intros n Hn; by rewrite lookup_insert_ne.
Qed.

Lemma append_loop_frame p t l w :
  table_schema (self w) = Some t ->
  only_table_changed t w (for_each l (append_mapped_column p) w).1.
Proof.
  revert w. induction l as [|k l IH]; intros w Hts;
    [apply only_table_changed_refl|].
  simpl. unfold bind.
  pose proof (append_mapped_column_frame p t k w Hts) as Hk.
  destruct (append_mapped_column p k w) as [w1 [[]|e]]; simpl in *; [|done].
  eapply only_table_changed_trans; [done|]. apply IH.
  destruct Hk as (_ & _ & _ & _ & Hts1 & _). by rewrite Hts1.
Qed.

(** [_create_table_schema name] makes the instance hold the table [name],
    and changes nothing else but the tables registered under [name]. *)
Lemma create_table_schema_frame p name w :
  table_schema (self (_create_table_schema p name w).1) = Some name /\
  data (self (_create_table_schema p name w).1) = data (self w) /\
  table_name (self (_create_table_schema p name w).1) = table_name (self w) /\
  stdout (_create_table_schema p name w).1 = stdout w /\
  forall n, n <> name ->
    metadata (self (_create_table_schema p name w).1) !! n =
    metadata (self w) !! n.
Proof.
  unfold _create_table_schema, Table, bind, get_self, modify_self.
  destruct (metadata (self w) !! name); simpl;
    match goal with
    | |- context [for_each ?l _ ?w0] =>
        pose proof (append_loop_frame p name l w0 eq_refl)
          as (Hd & Htn & _ & _ & Hts & Hout & Hmd)
    end; simpl in *.
  - repeat split; try done.
  - repeat split; try done.
    intros n Hn. rewrite Hmd by done. by rewrite lookup_insert_ne.
Qed.

(** ** The loop over the type map (lines 58-59) *)

Section DictKeyFacts.
Context {V : Type}.
Implicit Types (d l : list (string * V)) (k : string) (v : V).

Lemma elem_of_dict_keys_set k k' v d :
  k' ∈ dict_keys (dict_set k v d) <-> k' = k \/ k' ∈ dict_keys d.
Proof.
  destruct (decide (k ∈ dict_keys d)) as [Hin|Hnin].
  - rewrite dict_keys_set_present by done.
    split; [by right | by intros [->|?]].
  - rewrite dict_keys_set_absent by done.
    rewrite elem_of_app, list_elem_of_singleton. tauto.
Qed.

Lemma elem_of_dict_keys_update k d l :
  k ∈ dict_keys (dict_update d l) <-> k ∈ dict_keys d \/ k ∈ dict_keys l.
Proof.
  revert d. induction l as [|[k' v'] l IH]; intros d.
  - simpl. split; [by left | intros [?|H]; [done | by apply elem_of_nil in H]].
  - rewrite dict_update_cons, IH, elem_of_dict_keys_set, dict_keys_cons,
      elem_of_cons. simpl. tauto.
Qed.

Lemma dict_get_is_Some k d : k ∈ dict_keys d -> is_Some (dict_get k d).
Proof.
  intros Hin. destruct (dict_get k d) eqn:Hget; [by eexists|].
  by apply dict_get_None in Hget.
Qed.
End DictKeyFacts.

Section BuilderFacts.
Variable p : duplicate_policy.

Lemma append_mapped_column_run w t cols k v :
  table_schema (self w) = Some t ->
  metadata (self w) !! t = Some cols ->
  dict_get k (column_type_map (self w)) = Some v ->
  k <> EmptyString ->
  p = replace_existing \/ k ∉ dict_keys cols ->
  append_mapped_column p k w =
    ({| self :=
          set_metadata (<[t := dict_set k v cols]> (metadata (self w)))
            (self w);
        stdout := stdout w |},
     Ok tt).
Proof.
  intros Hts Hmd Hk Hblank Hp.
  unfold append_mapped_column, append_column, Column, bind, get_self,
    modify_self.
  rewrite Hts, Hk. simpl.
  rewrite (proj2 (String.eqb_neq k EmptyString) Hblank). rewrite Hmd.
  destruct Hp as [-> | Hnin].
  - by destruct (dict_get k cols).
  - apply dict_get_None in Hnin. by rewrite Hnin.
Qed.

Lemma append_mapped_column_blank w t v :
  table_schema (self w) = Some t ->
  dict_get EmptyString (column_type_map (self w)) = Some v ->
  append_mapped_column p EmptyString w = (w, Raise (ArgumentError blank_name)).
Proof.
  intros Hts Hk.
  unfold append_mapped_column, append_column, Column, bind, get_self.
  by rewrite Hts, Hk.
Qed.

Lemma append_loop l : forall w t cols,
  table_schema (self w) = Some t ->
  metadata (self w) !! t = Some cols ->
  (forall x, x ∈ l -> dict_get x.1 (column_type_map (self w)) = Some x.2) ->
  EmptyString ∉ dict_keys l ->
  p = replace_existing \/ NoDup (dict_keys cols ++ dict_keys l)%list ->
  for_each (dict_keys l) (append_mapped_column p) w =
    ({| self :=
          set_metadata (<[t := dict_update cols l]> (metadata (self w)))
            (self w);
        stdout := stdout w |},
     Ok tt).
Proof.
  induction l as [|[k v] l IH]; intros w t cols Hts Hmd Hget Hblank Hp.
  - simpl. unfold ret. rewrite insert_id by done.
    by destruct w as [[] out].
  - rewrite dict_keys_cons in Hblank.
    apply not_elem_of_cons in Hblank as [Hk Hblank].
    rewrite dict_keys_cons. simpl. unfold bind.
    rewrite (append_mapped_column_run w t cols k v); try done.
    + rewrite (IH _ t (dict_set k v cols)).
      * simpl. by rewrite insert_insert_eq.
      * done.
      * simpl. apply lookup_insert_eq.
      * intros x Hx. simpl. apply Hget. by right.
      * done.
      * destruct Hp as [?|Hnd]; [by left|right].
        rewrite dict_keys_cons in Hnd.
        rewrite dict_keys_set_absent.
        -- by rewrite <- app_assoc.
        -- apply NoDup_app in Hnd as (_ & Hdisj & _).
           intros Hin. apply (Hdisj k Hin). left.
    + apply (Hget (k, v)). left.
    + destruct Hp as [?|Hnd]; [by left|right].
      rewrite dict_keys_cons in Hnd.
      apply NoDup_app in Hnd as (_ & Hdisj & _).
      intros Hin. apply (Hdisj k Hin). left.
Qed.

(** A blank key among the keys still to come stops the loop with an
    exception, whatever the table has. *)
Lemma append_loop_blank l : forall w t,
  table_schema (self w) = Some t ->
  is_Some (metadata (self w) !! t) ->
  (forall k, k ∈ l -> is_Some (dict_get k (column_type_map (self w)))) ->
  EmptyString ∈ l ->
  exists e, (for_each l (append_mapped_column p) w).2 = Raise e.
Proof.
  induction l as [|k l IH]; intros w t Hts Hmd Hget Hblank.
  - by apply elem_of_nil in Hblank.
  - simpl. unfold bind.
    destruct (Hget k) as [v Hv]; [left|].
    destruct (decide (k = EmptyString)) as [->|Hk].
    { rewrite (append_mapped_column_blank w t v Hts Hv). by eexists. }
    apply elem_of_cons in Hblank as [?|Hblank]; [done|].
    pose proof (append_mapped_column_frame p t k w Hts)
      as (_ & _ & Hctm & _ & Hts' & _ & _).
    assert (forall w' r,
              append_mapped_column p k w = (w', Ok r) ->
              is_Some (metadata (self w') !! t)) as Hstill.
    { intros w' r. unfold append_mapped_column, append_column, Column, bind,
        get_self, modify_self.
      rewrite Hts, Hv. simpl.
      rewrite (proj2 (String.eqb_neq k EmptyString) Hk).
      destruct Hmd as [cols ->].
      destruct (dict_get k cols), p; intros [= <- <-]; simpl;
        rewrite lookup_insert_eq; by eexists. }
    destruct (append_mapped_column p k w) as [w1 [[]|e]] eqn:Hrun;
      simpl in *; [|by eexists].
    apply (IH w1 t).
    + by rewrite Hts'.
    + by apply (Hstill w1 ()).
    + intros k' Hk'. rewrite Hctm. apply Hget. by right.
    + done.
Qed.

(** The loop keeps the column names of the table an initial segment of the
    keys of the type map, however it ends. *)
Lemma append_loop_keeps_prefix rest : forall done_ w t cols,
  table_schema (self w) = Some t ->
  metadata (self w) !! t = Some cols ->
  dict_keys (column_type_map (self w)) = (done_ ++ rest)%list ->
  NoDup (dict_keys (column_type_map (self w))) ->
  dict_keys cols `prefix_of` dict_keys (column_type_map (self w)) ->
  done_ `prefix_of` dict_keys cols ->
  exists cols',
    metadata (self (for_each rest (append_mapped_column p) w).1) !! t =
      Some cols' /\
    dict_keys cols' `prefix_of` dict_keys (column_type_map (self w)).
Proof.
  induction rest as [|k rest IH]; intros done_ w t cols Hts Hmd HK Hnd Hpre Hdone.
  - by exists cols.
  - simpl. unfold bind.
    pose proof (append_mapped_column_frame p t k w Hts)
      as (_ & _ & Hctm & _ & Hts' & _ & _).
    assert (exists cols1,
              metadata (self (append_mapped_column p k w).1) !! t = Some cols1 /\
              dict_keys cols1
                `prefix_of` dict_keys (column_type_map (self w)) /\
              ((append_mapped_column p k w).2 = Ok () ->
               (done_ ++ [k])%list `prefix_of` dict_keys cols1)) as Hstep.
    { assert (is_Some (dict_get k (column_type_map (self w)))) as [v Hv].
      { apply dict_get_is_Some. rewrite HK. apply elem_of_app. right. left. }
      unfold append_mapped_column, append_column, Column, bind, get_self,
        modify_self.
      rewrite Hts, Hv. simpl.
      destruct (String.eqb k EmptyString); simpl; [by exists cols|].
      rewrite Hmd.
      assert (exists cols1,
                <[t := dict_set k v cols]> (metadata (self w)) !! t =
                  Some cols1 /\
                dict_keys cols1
                  `prefix_of` dict_keys (column_type_map (self w)) /\
                (done_ ++ [k])%list `prefix_of` dict_keys cols1) as Hset.
      { exists (dict_set k v cols). split; [apply lookup_insert_eq|].
        destruct Hdone as [x Hx]. rewrite Hx, HK in Hpre.
        apply prefix_app_inv in Hpre.
        destruct x as [|k0 x].
        - rewrite app_nil_r in Hx.
          assert (k ∉ dict_keys cols) as Hnin.
          { rewrite Hx. rewrite HK in Hnd.
            apply NoDup_app in Hnd as (_ & Hdisj & _).
            intros Hin. apply (Hdisj k Hin). left. }
          rewrite dict_keys_set_absent by done. rewrite Hx, HK.
          split; [|done].
          apply prefix_app, prefix_cons, prefix_nil.
        - apply prefix_cons_inv_1 in Hpre as Hk0. subst k0.
          assert (k ∈ dict_keys cols) as Hin.
          { rewrite Hx. apply elem_of_app. right. left. }
          rewrite dict_keys_set_present by done.
          split.
          + rewrite Hx, HK. apply prefix_app. by apply prefix_cons_inv_2 in Hpre as ?; apply prefix_cons.
          + rewrite Hx. apply prefix_app, prefix_cons, prefix_nil. }
      destruct (dict_get k cols), p; simpl;
        first [ by exists cols
              | destruct Hset as (cols1 & ? & ? & ?); by exists cols1 ]. }
    destruct (append_mapped_column p k w) as [w1 [[]|e]] eqn:Hrun;
      simpl in Hstep, Hctm, Hts' |- *.
    + destruct Hstep as (cols1 & Hmd1 & Hpre1 & Hdone1).
      destruct (IH (done_ ++ [k])%list w1 t cols1) as (cols' & Hmd' & Hpre').
      * by rewrite Hts'.
      * done.
      * by rewrite Hctm, HK, <- app_assoc.
      * by rewrite Hctm.
      * by rewrite Hctm.
      * by apply Hdone1.
      * exists cols'. split; [done|]. by rewrite <- Hctm.
    + destruct Hstep as (cols1 & Hmd1 & Hpre1 & _). by exists cols1.
Qed.

Lemma dict_get_own {V} (d : list (string * V)) :
  NoDup (dict_keys d) -> forall x, x ∈ d -> dict_get x.1 d = Some x.2.
Proof. intros Hnd [k v] Hx. by apply dict_get_elem. Qed.

(** ** [_create_table_schema] *)

Lemma create_table_schema_ok name w :
  wf (self w) ->
  EmptyString ∉ dict_keys (column_type_map (self w)) ->
  p = replace_existing \/ default [] (metadata (self w) !! name) = [] ->
  _create_table_schema p name w =
    ({| self :=
          set_metadata
            (<[name := column_type_map (self w)]> (metadata (self w)))
            (set_table_schema name (self w));
        stdout := stdout w |},
     Ok tt).
Proof.
  intros [Hnd Hpre] Hblank Hp.
  unfold _create_table_schema, Table. unfold bind at 1 2. unfold get_self at 1.
  destruct (metadata (self w) !! name) as [cols|] eqn:Hmd; simpl.
  - unfold bind, modify_self, get_self. simpl.
    rewrite (append_loop _ _ name cols); simpl; try done.
    + rewrite dict_update_prefix; [done | by apply (Hpre name) | done].
    + by apply dict_get_own.
    + destruct Hp as [?|Hnil]; [by left|right].
      simpl in Hnil. by subst cols.
  - unfold bind, modify_self, get_self, ret. simpl.
    rewrite (append_loop _ _ name []); simpl; try done.
    + rewrite insert_insert_eq.
      rewrite dict_update_prefix; [done | apply prefix_nil | done].
    + apply lookup_insert_eq.
    + by apply dict_get_own.
    + by right.
Qed.

Lemma create_table_schema_blank name w :
  EmptyString ∈ dict_keys (column_type_map (self w)) ->
  exists e, (_create_table_schema p name w).2 = Raise e.
Proof.
  intros Hblank.
  assert (forall k, k ∈ dict_keys (column_type_map (self w)) ->
                    is_Some (dict_get k (column_type_map (self w)))) as Hget
    by (intros k Hk; by apply dict_get_is_Some).
  unfold _create_table_schema, Table. unfold bind at 1 2. unfold get_self at 1.
  destruct (metadata (self w) !! name) as [cols|] eqn:Hmd; simpl;
    unfold bind, modify_self, get_self, ret; simpl.
  - assert (is_Some (metadata (self w) !! name)) as Hsome
      by (rewrite Hmd; by eexists).
    destruct (append_loop_blank (dict_keys (column_type_map (self w)))
                {| self := set_table_schema name (self w);
                   stdout := stdout w |} name eq_refl Hsome Hget Hblank)
      as [e He].
    exists e. revert He.
    by destruct (for_each _ _ _) as [w1 [[]|e1]].
  - assert (is_Some (<[name := []]> (metadata (self w)) !! name)) as Hsome
      by (rewrite lookup_insert_eq; by eexists).
    destruct (append_loop_blank (dict_keys (column_type_map (self w)))
                {| self :=
                     set_table_schema name
                       (set_metadata (<[name := []]> (metadata (self w)))
                          (self w));
                   stdout := stdout w |} name eq_refl Hsome Hget Hblank)
      as [e He].
    exists e. revert He.
    by destruct (for_each _ _ _) as [w1 [[]|e1]].
Qed.

(** [_create_table_schema] keeps [wf], however it ends. *)
Lemma wf_create_table_schema name w :
  wf (self w) -> wf (self (_create_table_schema p name w).1).
Proof.
  intros [Hnd Hpre].
  assert (forall w0 cols0,
            column_type_map (self w0) = column_type_map (self w) ->
            table_schema (self w0) = Some name ->
            metadata (self w0) !! name = Some cols0 ->
            dict_keys cols0 `prefix_of` dict_keys (column_type_map (self w)) ->
            (forall n, n <> name ->
               metadata (self w0) !! n = metadata (self w) !! n) ->
            wf (self (for_each (dict_keys (column_type_map (self w)))
                        (append_mapped_column p) w0).1)) as Hloop.
  { intros w0 cols0 Hctm Hts Hmd Hpre0 Hothers.
    destruct (append_loop_keeps_prefix
                (dict_keys (column_type_map (self w))) [] w0 name cols0)
      as (cols' & Hmd' & Hpre'); try done.
    - by rewrite Hctm.
    - by rewrite Hctm.
    - by rewrite Hctm.
    - apply prefix_nil.
    - pose proof (append_loop_frame p name
                    (dict_keys (column_type_map (self w))) w0 Hts)
        as (_ & _ & Hctm' & _ & _ & _ & Hmd'').
      split; [by rewrite Hctm', Hctm|].
      intros t cols Ht. rewrite Hctm', Hctm.
      destruct (decide (t = name)) as [->|Hne].
      + rewrite Hmd' in Ht. injection Ht as <-. by rewrite <- Hctm.
      + rewrite Hmd'', Hothers in Ht by done. by apply (Hpre t). }
  unfold _create_table_schema, Table. unfold bind at 1 2. unfold get_self at 1.
  destruct (metadata (self w) !! name) as [cols|] eqn:Hmd; simpl;
    unfold bind, modify_self, get_self, ret; simpl.
  - assert (wf (self (for_each (dict_keys (column_type_map (self w)))
                        (append_mapped_column p)
                        {| self := set_table_schema name (self w);
                           stdout := stdout w |}).1)) as Hwf.
    { apply (Hloop _ cols); simpl; try done. by apply (Hpre name). }
    revert Hwf. by destruct (for_each _ _ _) as [w1 [[]|e1]].
  - assert (wf (self (for_each (dict_keys (column_type_map (self w)))
                        (append_mapped_column p)
                        {| self :=
                             set_table_schema name
                               (set_metadata
                                  (<[name := []]> (metadata (self w)))
                                  (self w));
                           stdout := stdout w |}).1)) as Hwf.
    { apply (Hloop _ []); simpl; try done.
      - apply lookup_insert_eq.
      - apply prefix_nil.
      - intros n Hn. by rewrite lookup_insert_ne. }
    revert Hwf. by destruct (for_each _ _ _) as [w1 [[]|e1]].
Qed.
End BuilderFacts.

Lemma create_table_schema_duplicate name w c cols :
  wf (self w) ->
  EmptyString ∉ dict_keys (column_type_map (self w)) ->
  metadata (self w) !! name = Some (c :: cols) ->
  _create_table_schema reject_duplicate name w =
    ({| self := set_table_schema name (self w); stdout := stdout w |},
     Raise (DuplicateColumnError c.1 name)).
Proof.
  intros [Hnd Hpre] Hblank Hmd.
  unfold _create_table_schema, Table. unfold bind at 1 2. unfold get_self at 1.
  rewrite Hmd. simpl. unfold bind, modify_self, get_self. simpl.
  specialize (Hpre _ _ Hmd).
  destruct c as [k v0].
  destruct (column_type_map (self w)) as [|[k' v] m] eqn:Hm.
  { by apply prefix_nil_not in Hpre. }
  rewrite !dict_keys_cons in Hpre. apply prefix_cons_inv_1 in Hpre. subst k'.
  rewrite dict_keys_cons in Hblank.
  apply not_elem_of_cons in Hblank as [Hk _].
  rewrite dict_keys_cons. simpl.
  unfold bind, append_mapped_column, append_column, Column, bind, get_self.
  simpl.
  rewrite Hm. simpl. rewrite String.eqb_refl. simpl.
  rewrite (proj2 (String.eqb_neq k EmptyString)) by congruence.
  simpl. rewrite Hmd. simpl.
  by rewrite String.eqb_refl.
Qed.

(** ** [get_table_schema] *)

Lemma wf_fresh : wf fresh_instance.
Proof.
  split; [constructor|]. intros t cols H.
  unfold fresh_instance, MetaData in H. simpl in H.
  by rewrite lookup_empty in H.
Qed.

Lemma wf_after_success df tys name w :
  wf (self w) -> wf (self (after_success df tys name w)).
Proof.
  intros [Hnd Hpre]. split; simpl.
  - by apply dict_keys_update_NoDup.
  - intros t cols. rewrite lookup_insert. case_decide as Ht.
    + by intros [= <-].
    + intros Hmd. etrans; [by apply (Hpre t) | apply dict_keys_update_prefix].
Qed.

(** The world in which the loop over the columns starts. *)
Lemma infer_loop_start df tys name w :
  NoDup (df_columns df) ->
  typed_as df tys ->
  for_each (df_columns df) infer_and_store
    {| self := set_table_name name (set_data df (self w)); stdout := stdout w |} =
    ({| self :=
          set_column_type_map (dict_update (column_type_map (self w)) tys)
            (set_pd_api_dtype_map
               (dict_update (pd_api_dtype_map (self w)) (sniffed_kinds df))
               (set_table_name name (set_data df (self w))));
        stdout := (stdout w ++ concat (map (fun x => warnings x.2) df))%list |},
     Ok tt).
Proof.
  intros Hnd Hty.
  by rewrite (infer_loop_accept df df tys);
    [ | | apply getitem_own_columns | ].
Qed.

Lemma no_blank_after_update df tys (m : list (string * SqlType)) :
  typed_as df tys ->
  EmptyString ∉ dict_keys m ->
  EmptyString ∉ df_columns df ->
  EmptyString ∉ dict_keys (dict_update m tys).
Proof.
  intros Hty Hm Hdf. rewrite elem_of_dict_keys_update.
  rewrite (typed_as_keys df tys Hty). by intros [?|?].
Qed.

Lemma wf_after_loop df tys name w :
  wf (self w) ->
  wf (set_column_type_map (dict_update (column_type_map (self w)) tys)
        (set_pd_api_dtype_map
           (dict_update (pd_api_dtype_map (self w)) (sniffed_kinds df))
           (set_table_name name (set_data df (self w))))).
Proof.
  intros [Hk Hpre]. split; simpl.
  - by apply dict_keys_update_NoDup.
  - intros t cols Hmd.
    etrans; [by apply (Hpre t) | apply dict_keys_update_prefix].
Qed.

Lemma get_table_schema_ok p df tys name w :
  wf (self w) ->
  NoDup (df_columns df) ->
  typed_as df tys ->
  EmptyString ∉ dict_keys (column_type_map (self w)) ->
  EmptyString ∉ df_columns df ->
  p = replace_existing \/ default [] (metadata (self w) !! name) = [] ->
  get_table_schema p df name w = (after_success df tys name w, Ok (Some name)).
Proof.
  intros Hwf Hnd Hty Hblank Hblank' Hp.
  unfold get_table_schema. unfold bind at 1 2 3. unfold modify_self at 1 2.
  simpl. rewrite (infer_loop_start df tys name w Hnd Hty).
  unfold bind. rewrite create_table_schema_ok.
  - done.
  - by apply wf_after_loop.
  - simpl. by apply (no_blank_after_update df).
  - done.
Qed.

Lemma get_table_schema_duplicate_run df tys name w c cols :
  wf (self w) ->
  NoDup (df_columns df) ->
  typed_as df tys ->
  EmptyString ∉ dict_keys (column_type_map (self w)) ->
  EmptyString ∉ df_columns df ->
  metadata (self w) !! name = Some (c :: cols) ->
  get_table_schema reject_duplicate df name w =
    ({| self :=
          set_table_schema name
            (set_column_type_map (dict_update (column_type_map (self w)) tys)
               (set_pd_api_dtype_map
                  (dict_update (pd_api_dtype_map (self w)) (sniffed_kinds df))
                  (set_table_name name (set_data df (self w)))));
        stdout := (stdout w ++ concat (map (fun x => warnings x.2) df))%list |},
     Raise (DuplicateColumnError c.1 name)).
Proof.
  intros Hwf Hnd Hty Hblank Hblank' Hmd.
  unfold get_table_schema. unfold bind at 1 2 3. unfold modify_self at 1 2.
  simpl. rewrite (infer_loop_start df tys name w Hnd Hty).
  unfold bind. rewrite (create_table_schema_duplicate _ _ c cols).
  - done.
  - by apply wf_after_loop.
  - simpl. by apply (no_blank_after_update df).
  - done.
Qed.

Lemma get_table_schema_duplicate df tys name w c cols :
  wf (self w) ->
  NoDup (df_columns df) ->
  typed_as df tys ->
  EmptyString ∉ dict_keys (column_type_map (self w)) ->
  EmptyString ∉ df_columns df ->
  metadata (self w) !! name = Some (c :: cols) ->
  (get_table_schema reject_duplicate df name w).2 =
    Raise (DuplicateColumnError c.1 name).
Proof.
  intros Hwf Hnd Hty Hblank Hblank' Hmd.
  by rewrite (get_table_schema_duplicate_run df tys name w c cols).
Qed.

(** A blank key in the type map, old or new, makes the call raise. *)
Lemma get_table_schema_blank p df tys name w :
  NoDup (df_columns df) ->
  typed_as df tys ->
  EmptyString ∈ dict_keys (column_type_map (self w)) \/ EmptyString ∈ df_columns df ->
  exists e, (get_table_schema p df name w).2 = Raise e.
Proof.
  intros Hnd Hty Hblank.
  unfold get_table_schema. unfold bind at 1 2 3. unfold modify_self at 1 2.
  simpl. rewrite (infer_loop_start df tys name w Hnd Hty).
  unfold bind.
  destruct (create_table_schema_blank p name
              {| self :=
                   set_column_type_map
                     (dict_update (column_type_map (self w)) tys)
                     (set_pd_api_dtype_map
                        (dict_update (pd_api_dtype_map (self w))
                           (sniffed_kinds df))
                        (set_table_name name (set_data df (self w))));
                 stdout :=
                   (stdout w ++ concat (map (fun x => warnings x.2) df))%list |})
    as [e He].
  { simpl. apply elem_of_dict_keys_update.
    by rewrite (typed_as_keys df tys Hty). }
  exists e. revert He.
  destruct (_create_table_schema _ _ _) as [w1 [[]|e1]]; simpl;
    [discriminate | by intros [= ->]].
Qed.

Lemma get_table_schema_rejects p df name w :
  NoDup (df_columns df) ->
  Exists (fun x => rejected x.2) df ->
  exists w' e x,
    get_table_schema p df name w = (w', Raise e) /\
    x ∈ df /\ rejected x.2 /\ classify x.2 = Raise e /\
    table_schema (self w') = table_schema (self w) /\
    metadata (self w') = metadata (self w).
Proof.
  intros Hnd Hex.
  unfold get_table_schema. unfold bind at 1 2 3. unfold modify_self at 1 2.
  simpl.
  destruct (infer_loop_reject df df
              {| self := set_table_name name (set_data df (self w));
                 stdout := stdout w |})
    as (w' & e & x & Hrun & Hx & Hrej & He & Hts & Hmd);
    [done | by apply getitem_own_columns | done |].
  exists w', e, x. unfold df_columns. by rewrite Hrun.
Qed.

(** A call that returns went through: every column was given a type, no
    key of the type map is blank, and either the library replaces
    same-named columns or the table had no column yet. *)
Lemma get_table_schema_returns_nonblank p df name w w' r :
  wf (self w) ->
  NoDup (df_columns df) ->
  get_table_schema p df name w = (w', Ok r) ->
  exists tys,
    typed_as df tys /\
    (EmptyString ∉ dict_keys (column_type_map (self w))) /\
    (EmptyString ∉ df_columns df) /\
    (p = replace_existing \/ default [] (metadata (self w) !! name) = []) /\
    w' = after_success df tys name w /\ r = Some name.
Proof.
  intros Hwf Hnd Hrun.
  destruct (decide (Exists (fun x => rejected x.2) df)) as [Hex|Hall].
  { destruct (get_table_schema_rejects p df name w Hnd Hex)
      as (? & ? & ? & Hrun' & _). congruence. }
  apply not_Exists_Forall in Hall; [|intros x; apply _].
  destruct (typed_as_exists df Hall) as [tys Hty].
  exists tys. split; [done|].
  assert ((EmptyString ∉ dict_keys (column_type_map (self w))) /\
          (EmptyString ∉ df_columns df))
    as [Hb Hb'].
  { split; intros Hin;
      destruct (get_table_schema_blank p df tys name w Hnd Hty) as [e He];
      try (by left); try (by right); rewrite Hrun in He; done. }
  assert (p = replace_existing \/ default [] (metadata (self w) !! name) = [])
    as Hp.
  { destruct p; [by left|right].
    destruct (metadata (self w) !! name) as [[|c cols]|] eqn:Hmd; try done.
    pose proof (get_table_schema_duplicate df tys name w c cols
                  Hwf Hnd Hty Hb Hb' Hmd) as Hdup.
    rewrite Hrun in Hdup. done. }
  repeat (split; [done|]).
  rewrite (get_table_schema_ok p df tys name w Hwf Hnd Hty Hb Hb' Hp) in Hrun.
  by inversion Hrun.
Qed.

Lemma get_table_schema_returns p df name w w' r :
  wf (self w) ->
  NoDup (df_columns df) ->
  get_table_schema p df name w = (w', Ok r) ->
  exists tys,
    typed_as df tys /\
    (p = replace_existing \/ default [] (metadata (self w) !! name) = []) /\
    w' = after_success df tys name w /\ r = Some name.
Proof.
  intros Hwf Hnd Hrun.
  destruct (get_table_schema_returns_nonblank p df name w w' r Hwf Hnd Hrun)
    as (tys & ? & _ & _ & ? & ? & ?).
  by exists tys.
Qed.

(** * The claims *)

(** ** The constructor *)

Lemma logging_not_global : "logging" ∉ module_globals.
Proof. apply (bool_decide_unpack _). by vm_compute. Qed.

(** C3.  Constructing an instance raises [NameError]: line 28 reads the
    name [logging], which no import of the module binds and which the
    builtins do not provide.  A caller that constructs an instance to ask
    for a schema therefore gets the [NameError], whatever the frame and the
    table name, and nothing is printed. *)
Theorem construction_raises_NameError (builtins : list string) :
  "logging" ∉ builtins ->
  __init__ builtins = Raise (NameError "logging") /\
  forall p df name,
    construct_and_get_table_schema p builtins df name =
      ([], Raise (NameError "logging")).
Proof.
  intros Hb.
  assert (__init__ builtins = Raise (NameError "logging")) as Hinit.
  { unfold __init__, load_global. rewrite bool_decide_eq_false_2; [done|].
    rewrite elem_of_app. intros [Hg|Hg]; [by apply logging_not_global|done]. }
  split; [done|]. intros p df name.
  unfold construct_and_get_table_schema. by rewrite Hinit.
Qed.

Lemma construction_raises_NameError_witness :
  __init__ ["dict"; "print"; "getattr"; "ValueError"; "AttributeError"] =
    Raise (NameError "logging").
Proof.
  apply (construction_raises_NameError
           ["dict"; "print"; "getattr"; "ValueError"; "AttributeError"]).
  apply (bool_decide_unpack _). by vm_compute.
Defined.

(** ** The classifier *)

(** C2.  For a column sniffed as [integer], with [width] the lower-cased
    name of its dtype: int8, uint8 and int16 give SmallInteger; uint16 and
    int32 give Integer; uint64 raises the unsupported-type error; every
    other width, int64 and uint32 among them, gives BigInteger. *)
Theorem integer_widths w df colname col :
  working_on df w ->
  getitem df colname = Some col ->
  infer_dtype col = "integer" ->
  let width := lower (dtype_name col) in
  let outcome := (_infer_sqlalchemy_dtype colname w).2 in
  (width ∈ ["int8"; "uint8"; "int16"] -> outcome = Ok SmallInteger) /\
  (width ∈ ["uint16"; "int32"] -> outcome = Ok Integer) /\
  (width = "uint64" ->
   outcome =
     Raise (UnsupportedTypeError
              "Unsigned 64 bit integer datatype is not supported")) /\
  (width ∉ ["int8"; "uint8"; "int16"; "uint16"; "int32"; "uint64"] ->
   outcome = Ok BigInteger) /\
  (width ∈ ["int64"; "uint32"] -> outcome = Ok BigInteger).
Proof.
  intros Hdf Hcol Hk width outcome. subst outcome.
  rewrite (infer_run w df colname col Hdf Hcol). simpl.
  rewrite (classify_integer col Hk). fold width.
  assert (width ∉ ["int8"; "uint8"; "int16"; "uint16"; "int32"; "uint64"] ->
          (if str_in width ["int8"; "uint8"; "int16"] then Ok SmallInteger
           else if str_in width ["uint16"; "int32"] then Ok Integer
           else if String.eqb width "uint64"
           then Raise (ValueError
                         "Unsigned 64 bit integer datatype is not supported")
           else Ok BigInteger) = Ok BigInteger) as Hother.
  { intros Hw. repeat (apply not_elem_of_cons in Hw as [? Hw]).
    rewrite (proj2 (str_in_false width ["int8"; "uint8"; "int16"])).
    2:{ rewrite !not_elem_of_cons.
        repeat split; first [done | apply not_elem_of_nil]. }
    rewrite (proj2 (str_in_false width ["uint16"; "int32"])).
    2:{ rewrite !not_elem_of_cons.
        repeat split; first [done | apply not_elem_of_nil]. }
    by rewrite (proj2 (String.eqb_neq width "uint64")). }
  repeat split.
  - intros Hw. by rewrite (proj2 (str_in_spec _ _) Hw).
  - intros Hw.
    rewrite (proj2 (str_in_spec width ["uint16"; "int32"]) Hw).
    apply elem_of_cons in Hw as [-> | Hw]; [done|].
    apply list_elem_of_singleton in Hw as ->. done.
  - intros ->. done.
  - done.
  - intros Hw. apply Hother.
    apply elem_of_cons in Hw as [-> | Hw];
      [|apply list_elem_of_singleton in Hw as ->];
      apply (bool_decide_unpack _); by vm_compute.
Qed.

Lemma integer_widths_witness :
  (_infer_sqlalchemy_dtype "id" sample_world).2 = Ok Integer /\
  (_infer_sqlalchemy_dtype "big" sample_world).2 =
    Raise (UnsupportedTypeError
             "Unsigned 64 bit integer datatype is not supported").
Proof.
  split.
  - apply (integer_widths sample_world sample_frame "id"
             (series "integer" "int32") eq_refl eq_refl eq_refl).
    apply (bool_decide_unpack _). by vm_compute.
  - apply (integer_widths sample_world sample_frame "big"
             (series "integer" "UInt64") eq_refl eq_refl eq_refl).
    reflexivity.
Defined.

(** C7, as the code has it.  For a column sniffed as [floating]: when its
    dtype compares equal to ["float32"] (line 106) the classifier answers
    [Float(precision=23)], and otherwise [Float(precision=53)], whatever
    the name and the storage width of the dtype. *)
Theorem floating_widths w df colname col :
  working_on df w ->
  getitem df colname = Some col ->
  infer_dtype col = "floating" ->
  let outcome := (_infer_sqlalchemy_dtype colname w).2 in
  (dtype_eq_float32 col = true -> outcome = Ok (Float 23)) /\
  (dtype_eq_float32 col = false -> outcome = Ok (Float 53)).
Proof.
  intros Hdf Hcol Hk outcome. subst outcome.
  rewrite (infer_run w df colname col Hdf Hcol). simpl.
  rewrite (classify_floating col Hk). split; by intros ->.
Qed.

Lemma floating_widths_witness :
  (_infer_sqlalchemy_dtype "amount" sample_world).2 = Ok (Float 23).
Proof.
  apply (floating_widths sample_world sample_frame "amount"
           (series "floating" "float32") eq_refl eq_refl eq_refl).
  reflexivity.
Defined.

(** C7, as the claim has it, fails on a column of 32-bit floats whose
    dtype does not compare equal to ["float32"]: the column in the other
    byte order is sniffed as [floating], its dtype is named [float32], and
    the classifier answers [Float(precision=53)]. *)
Lemma floating_widths_counterexample :
  getitem swapped_frame "reading" = Some byte_swapped_float32 /\
  infer_dtype byte_swapped_float32 = "floating" /\
  dtype_name byte_swapped_float32 = "float32" /\
  (_infer_sqlalchemy_dtype "reading" swapped_world).2 = Ok (Float 53) /\
  (_infer_sqlalchemy_dtype "reading" swapped_world).2 <> Ok (Float 23).
Proof.
  repeat split; try reflexivity. by vm_compute.
Qed.

(** C6.  For a column sniffed as [datetime64] or [datetime], the classifier
    never raises: it answers TimestampWithTimezone when the column carries
    time-zone information (through [col.dt.tz] or, [col.dt] raising
    [AttributeError], through the column's own [tz]) and DateTime
    otherwise, the case of an unavailable [col.dt] included. *)
Theorem datetime_timezone w df colname col :
  working_on df w ->
  getitem df colname = Some col ->
  infer_dtype col = "datetime64" \/ infer_dtype col = "datetime" ->
  let outcome := (_infer_sqlalchemy_dtype colname w).2 in
  (carries_timezone col = true -> outcome = Ok TimestampWithTimezone) /\
  (carries_timezone col = false -> outcome = Ok DateTime) /\
  (dt_tz col = None -> attr_tz col = None -> outcome = Ok DateTime) /\
  (forall e, outcome <> Raise e).
Proof.
  intros Hdf Hcol Hk outcome. subst outcome.
  rewrite (infer_run w df colname col Hdf Hcol). simpl.
  destruct (classify_datetime col Hk) as [-> _].
  repeat split.
  - by intros ->.
  - by intros ->.
  - intros Hdt Htz. unfold carries_timezone. by rewrite Hdt, Htz.
  - done.
Qed.

Lemma datetime_timezone_witness :
  (_infer_sqlalchemy_dtype "ts_utc" sample_world).2 = Ok TimestampWithTimezone
  /\ (_infer_sqlalchemy_dtype "ts" sample_world).2 = Ok DateTime.
Proof.
  split.
  - apply (datetime_timezone sample_world sample_frame "ts_utc" aware_datetime
             eq_refl eq_refl (or_introl eq_refl)).
    reflexivity.
  - destruct (datetime_timezone sample_world sample_frame "ts" naive_datetime
                eq_refl eq_refl (or_introl eq_refl)) as (_ & Hnaive & _).
    apply Hnaive. reflexivity.
Defined.

(** C9.  For a column sniffed as [timedelta64] the classifier answers
    BigInteger, and it prints one line, the warning that the value will be
    written to the database as an integer. *)
Theorem timedelta_is_BigInteger_with_warning w df colname col :
  working_on df w ->
  getitem df colname = Some col ->
  infer_dtype col = "timedelta64" ->
  (_infer_sqlalchemy_dtype colname w).2 = Ok BigInteger /\
  stdout (_infer_sqlalchemy_dtype colname w).1 =
    (stdout w ++
     ["'timedelta' type is unsupported; will be written as int value to db"])%list.
Proof.
  intros Hdf Hcol Hk.
  rewrite (infer_run w df colname col Hdf Hcol). simpl.
  by destruct (classify_timedelta col Hk) as [-> ->].
Qed.

Lemma timedelta_is_BigInteger_with_warning_witness :
  (_infer_sqlalchemy_dtype "elapsed" sample_world).2 = Ok BigInteger /\
  stdout (_infer_sqlalchemy_dtype "elapsed" sample_world).1 =
    ["'timedelta' type is unsupported; will be written as int value to db"].
Proof.
  exact (timedelta_is_BigInteger_with_warning sample_world sample_frame
           "elapsed" (series "timedelta64" "timedelta64[ns]")
           eq_refl eq_refl eq_refl).
Defined.

(** C5.  The classifier raises exactly for the columns sniffed as [complex]
    and for the columns sniffed as [integer] whose dtype is uint64; every
    other column is given a type, whatever its kind, so also a column whose
    kind is [empty].  A kind without a [case] of its own gives Text.  For a
    complex column the exception is the unsupported-type error with the
    message about complex datatypes. *)
Theorem classifier_failures w df colname col :
  working_on df w ->
  getitem df colname = Some col ->
  let outcome := (_infer_sqlalchemy_dtype colname w).2 in
  ((exists e, outcome = Raise e) <->
   infer_dtype col = "complex" \/
   (infer_dtype col = "integer" /\ lower (dtype_name col) = "uint64")) /\
  (~ rejected col -> exists ty, outcome = Ok ty) /\
  (infer_dtype col ∉ recognized_kinds -> outcome = Ok Text) /\
  (infer_dtype col = "empty" -> outcome = Ok Text) /\
  (infer_dtype col = "complex" ->
   outcome = Raise (UnsupportedTypeError "Complex datatypes not supported")).
Proof.
  intros Hdf Hcol outcome. subst outcome.
  rewrite (infer_run w df colname col Hdf Hcol). simpl.
  split; [apply classify_raises_iff|].
  split; [apply classify_accepts|].
  split; [apply classify_unrecognized|].
  split; [|apply classify_complex].
  intros Hk. apply classify_unrecognized. rewrite Hk.
  apply (bool_decide_unpack _). by vm_compute.
Qed.

Lemma classifier_failures_witness :
  (_infer_sqlalchemy_dtype "z" sample_world).2 =
    Raise (UnsupportedTypeError "Complex datatypes not supported") /\
  (_infer_sqlalchemy_dtype "note" sample_world).2 = Ok Text.
Proof.
  split.
  - destruct (classifier_failures sample_world sample_frame "z"
                (series "complex" "complex128") eq_refl eq_refl)
      as (_ & _ & _ & _ & Hcomplex).
    apply Hcomplex. reflexivity.
  - destruct (classifier_failures sample_world sample_frame "note"
                (series "string" "object") eq_refl eq_refl)
      as (_ & _ & Hother & _).
    apply Hother. apply (bool_decide_unpack _). by vm_compute.
Defined.

(** ** The schema builder *)

Lemma typed_as_get l tys c :
  typed_as l tys ->
  match getitem l c with
  | Some col => exists ty, classify col = Ok ty /\ dict_get c tys = Some ty
  | None => dict_get c tys = None
  end.
Proof.
  induction 1 as [|[k col] [k' ty] l tys [Hk Hty] _ IH]; [done|].
  simpl in Hk, Hty. subst k'. unfold getitem in *. simpl.
  destruct (String.eqb_spec k c) as [->|_]; [by exists ty | done].
Qed.

Lemma sniffed_kinds_get l c :
  dict_get c (sniffed_kinds l) = infer_dtype <$> getitem l c.
Proof.
  induction l as [|[k col] l IH]; [done|].
  unfold getitem in *. simpl. by destruct (String.eqb_spec k c).
Qed.

Lemma sniffed_kinds_keys l : dict_keys (sniffed_kinds l) = dict_keys l.
Proof.
  induction l as [|[k col] l IH]; [done|].
  change (k :: dict_keys (sniffed_kinds l) = k :: dict_keys l).
  by rewrite IH.
Qed.

Lemma steady_refl w : steady w w.
Proof. by repeat split. Qed.

Lemma steady_trans w1 w2 w3 : steady w1 w2 -> steady w2 w3 -> steady w1 w3.
Proof.
  intros (Hm1 & Hp1 & Hq1 & Hn1) (Hm2 & Hp2 & Hq2 & Hn2). repeat split.
  - congruence.
  - by etrans.
  - by etrans.
  - auto.
Qed.

Lemma infer_and_store_steady c w : steady w (infer_and_store c w).1.
Proof.
  unfold infer_and_store, _infer_sqlalchemy_dtype, self_data_getitem.
  unfold bind, get_self, modify_self. simpl.
  destruct (data (self w)) as [df|]; [|apply steady_refl].
  destruct (getitem df c) as [col|]; simpl; [|apply steady_refl].
  rewrite match_pd_api_type_run.
  destruct (classify col) as [ty|e]; simpl.
  - repeat split; simpl;
      [apply dict_keys_set_prefix | apply dict_keys_set_prefix
      | apply dict_keys_set_NoDup].
  - repeat split; simpl; [done | apply dict_keys_set_prefix | done].
Qed.

Lemma infer_loop_steady l w : steady w (for_each l infer_and_store w).1.
Proof.
  revert w. induction l as [|c l IH]; intros w; [apply steady_refl|].
  simpl. unfold bind.
  pose proof (infer_and_store_steady c w) as Hc.
  destruct (infer_and_store c w) as [w1 [[]|e]]; simpl in *; [|done].
  eapply steady_trans; [done | apply IH].
Qed.

Lemma wf_steady w w' : steady w w' -> wf (self w) -> wf (self w').
Proof.
  intros (Hm & Hp & _ & Hn) [Hnd Hpre]. split; [auto|].
  intros t cols Hmd. rewrite Hm in Hmd. etrans; [by apply (Hpre t) | done].
Qed.

(** [wf] holds of a new instance and every call keeps it, whether the call
    returns or raises. *)
Lemma wf_get_table_schema p df name w :
  wf (self w) -> wf (self (get_table_schema p df name w).1).
Proof.
  intros Hwf.
  unfold get_table_schema. unfold bind at 1 2 3. unfold modify_self at 1 2.
  simpl.
  pose proof (infer_loop_steady (df_columns df)
                {| self := set_table_name name (set_data df (self w));
                   stdout := stdout w |}) as Hst.
  destruct (for_each (df_columns df) infer_and_store _) as [wA [[]|e]];
    simpl in Hst.
  2:{ simpl. by apply (wf_steady _ _ Hst). }
  assert (wf (self wA)) as HwfA by (by apply (wf_steady _ _ Hst)).
  unfold bind.
  pose proof (wf_create_table_schema p name wA HwfA) as HwfB.
  by destruct (_create_table_schema p name wA) as [wB [[]|e]].
Qed.

(** C1.  On a new instance and a frame whose labels are distinct: the
    table that the call returns has one column per column of the frame,
    under the same name, in the frame's order, with the classifier's type;
    and the call does return when the classifier has a type for every
    column and no label is blank. *)
Theorem table_has_every_column_once p df name w :
  self w = fresh_instance ->
  NoDup (df_columns df) ->
  (Forall (fun x => ~ rejected x.2) df ->
   EmptyString ∉ df_columns df ->
   exists w', get_table_schema p df name w = (w', Ok (Some name))) /\
  (forall w' r,
     get_table_schema p df name w = (w', Ok r) ->
     dict_keys (table_columns w' r) = df_columns df /\
     typed_as df (table_columns w' r)).
Proof.
  intros Hfresh Hnd.
  assert (wf (self w)) as Hwf by (rewrite Hfresh; apply wf_fresh).
  split.
  - intros Hacc Hblank. destruct (typed_as_exists df Hacc) as [tys Hty].
    eexists. apply (get_table_schema_ok p df tys name w); try done.
    + rewrite Hfresh. apply not_elem_of_nil.
    + right. rewrite Hfresh. simpl. unfold MetaData. by rewrite lookup_empty.
  - intros w' r Hrun.
    destruct (get_table_schema_returns p df name w w' r Hwf Hnd Hrun)
      as (tys & Hty & _ & -> & ->).
    assert (table_columns (after_success df tys name w) (Some name) = tys)
      as ->.
    { simpl. rewrite lookup_insert_eq. simpl. rewrite Hfresh. simpl.
      apply (dict_update_absent []). simpl.
      rewrite (typed_as_keys df tys Hty). done. }
    split; [by apply typed_as_keys | done].
Qed.

Lemma table_has_every_column_once_witness :
  exists w',
    get_table_schema reject_duplicate accepted_frame "t" fresh_world =
      (w', Ok (Some "t")) /\
    table_columns w' (Some "t") =
      [("id", Integer); ("ts", DateTime); ("amount", Float 23);
       ("flag", Boolean)].
Proof.
  assert (NoDup (df_columns accepted_frame)) as Hnd.
  { apply (bool_decide_unpack _). by vm_compute. }
  destruct (table_has_every_column_once reject_duplicate accepted_frame "t"
              fresh_world eq_refl Hnd) as [Hreturns Htable].
  destruct Hreturns as [w' Hrun].
  { apply (bool_decide_unpack _). by vm_compute. }
  { apply (bool_decide_unpack _). by vm_compute. }
  exists w'. split; [done|].
  destruct (Htable w' (Some "t") Hrun) as [_ Hty].
  apply (typed_as_functional accepted_frame); [done|].
  repeat constructor.
Defined.

(** C8.  When the frame has a column that the classifier has no type for,
    the call raises the classifier's exception for such a column and
    returns no table; the table that the instance holds and the tables
    registered with its [MetaData] are as they were before the call. *)
Theorem classifier_failure_aborts p df name w :
  NoDup (df_columns df) ->
  (exists x, x ∈ df /\ rejected x.2) ->
  exists w' msg,
    get_table_schema p df name w = (w', Raise (UnsupportedTypeError msg)) /\
    (exists x, x ∈ df /\ rejected x.2 /\
               classify x.2 = Raise (UnsupportedTypeError msg)) /\
    table_schema (self w') = table_schema (self w) /\
    metadata (self w') = metadata (self w).
Proof.
  intros Hnd Hex. apply Exists_exists in Hex.
  destruct (get_table_schema_rejects p df name w Hnd Hex)
    as (w' & e & x & Hrun & Hx & Hrej & He & Hts & Hmd).
  assert (exists msg, e = UnsupportedTypeError msg) as [msg ->].
  { destruct Hrej as [Hc | [Hi Hw]].
    - rewrite (classify_complex _ Hc) in He. inversion He. by eexists.
    - rewrite (classify_integer _ Hi), Hw in He. simpl in He.
      inversion He. by eexists. }
  exists w', msg. split; [done|]. split; [|done]. by exists x.
Qed.

Lemma classifier_failure_aborts_witness :
  exists w' msg,
    get_table_schema reject_duplicate unsigned_frame "t" fresh_world =
      (w', Raise (UnsupportedTypeError msg)) /\
    table_schema (self w') = None.
Proof.
  destruct (classifier_failure_aborts reject_duplicate unsigned_frame "t"
              fresh_world) as (w' & msg & Hrun & _ & Hts & _).
  - apply (bool_decide_unpack _). by vm_compute.
  - exists ("id", series "integer" "uint64"). split; [left|].
    right. split; reflexivity.
  - exists w', msg. split; [done|]. by rewrite Hts.
Defined.

(** ** A second call on the same instance *)

(** After a call that returned, the table it returned has the entries of
    [column_type_map] for columns. *)
Lemma table_is_type_map p df name w w' r :
  wf (self w) ->
  NoDup (df_columns df) ->
  get_table_schema p df name w = (w', Ok r) ->
  r = Some name /\
  metadata (self w') !! name = Some (column_type_map (self w')) /\
  table_columns w' r = column_type_map (self w').
Proof.
  intros Hwf Hnd Hrun.
  destruct (get_table_schema_returns p df name w w' r Hwf Hnd Hrun)
    as (tys & Hty & _ & -> & ->).
  split; [done|]. simpl. by rewrite lookup_insert_eq.
Qed.

(** Classifying the same frame again assigns to every key the value that
    it has. *)
Lemma dict_update_again {V} (d l : list (string * V)) :
  NoDup (dict_keys l) -> dict_update (dict_update d l) l = dict_update d l.
Proof.
  intros Hnd. apply dict_update_same. intros [k v] Hx. simpl.
  rewrite dict_get_update by done.
  by rewrite (dict_get_elem k v l Hnd Hx).
Qed.

(** X16.  A call having returned on an instance, the same call again on
    that instance: where the library replaces a column of the same name,
    it returns the same table with the same columns; where the library
    rejects a column of the same name, it returns (a table without
    columns) only if the first table had no column, and otherwise raises
    [DuplicateColumnError] for the first column. *)
Theorem second_call_on_same_instance p df name w w1 r1 :
  wf (self w) ->
  NoDup (df_columns df) ->
  get_table_schema p df name w = (w1, Ok r1) ->
  match p, table_columns w1 r1 with
  | reject_duplicate, c :: _ =>
      (get_table_schema p df name w1).2 =
        Raise (DuplicateColumnError c.1 name)
  | _, _ =>
      exists w2,
        get_table_schema p df name w1 = (w2, Ok r1) /\
        table_columns w2 r1 = table_columns w1 r1
  end.
Proof.
  intros Hwf Hnd Hrun.
  destruct (table_is_type_map p df name w w1 r1 Hwf Hnd Hrun)
    as (-> & Hmd1 & Hcols1).
  destruct (get_table_schema_returns_nonblank p df name w w1 _ Hwf Hnd Hrun)
    as (tys & Hty & Hb & Hb' & _ & Hw1 & _).
  assert (wf (self w1)) as Hwf1 by (subst w1; by apply wf_after_success).
  assert (NoDup (dict_keys tys)) as Hndt
    by (by rewrite (typed_as_keys df tys Hty)).
  assert (EmptyString ∉ dict_keys (column_type_map (self w1))) as Hb1.
  { subst w1. simpl. by apply (no_blank_after_update df). }
  assert (p = replace_existing \/
          default [] (metadata (self w1) !! name) = [] ->
          exists w2,
            get_table_schema p df name w1 = (w2, Ok (Some name)) /\
            table_columns w2 (Some name) = table_columns w1 (Some name))
    as Hagain.
  { intros Hp. eexists. split.
    - by apply (get_table_schema_ok p df tys name w1).
    - rewrite Hcols1. simpl. rewrite lookup_insert_eq. simpl.
      subst w1. simpl. by apply dict_update_again. }
  rewrite Hcols1 in Hagain |- *.
  destruct p.
  - destruct (column_type_map (self w1)); apply Hagain; by left.
  - destruct (column_type_map (self w1)) as [|c m] eqn:Hm.
    + apply Hagain. right. by rewrite Hmd1.
    + apply (get_table_schema_duplicate df tys name w1 c m); try done.
      by rewrite Hm.
Qed.

Lemma second_call_on_same_instance_witness :
  (exists w1 w2,
     get_table_schema replace_existing accepted_frame "t" fresh_world =
       (w1, Ok (Some "t")) /\
     get_table_schema replace_existing accepted_frame "t" w1 =
       (w2, Ok (Some "t")) /\
     table_columns w2 (Some "t") = table_columns w1 (Some "t")) /\
  (exists w1,
     get_table_schema reject_duplicate accepted_frame "t" fresh_world =
       (w1, Ok (Some "t")) /\
     (get_table_schema reject_duplicate accepted_frame "t" w1).2 =
       Raise (DuplicateColumnError "id" "t")).
Proof.
  assert (NoDup (df_columns accepted_frame)) as Hnd
    by (apply (bool_decide_unpack _); by vm_compute).
  assert (typed_as accepted_frame
            [("id", Integer); ("ts", DateTime); ("amount", Float 23);
             ("flag", Boolean)]) as Hty
    by (repeat constructor).
  assert (EmptyString ∉ dict_keys (column_type_map (self fresh_world)))
    as Hb by apply not_elem_of_nil.
  assert (EmptyString ∉ df_columns accepted_frame) as Hb'
    by (apply (bool_decide_unpack _); by vm_compute).
  split.
  - pose proof (get_table_schema_ok replace_existing accepted_frame _ "t"
                  fresh_world wf_fresh Hnd Hty Hb Hb' (or_introl eq_refl))
      as Hrun1.
    pose proof (second_call_on_same_instance replace_existing accepted_frame
                  "t" fresh_world _ _ wf_fresh Hnd Hrun1) as Hsecond.
    cbv beta iota in Hsecond. destruct Hsecond as (w2 & Hrun2 & Hcols).
    eexists. exists w2.
    split; [exact Hrun1|]. split; [exact Hrun2 | exact Hcols].
  - pose proof (get_table_schema_ok reject_duplicate accepted_frame _ "t"
                  fresh_world wf_fresh Hnd Hty Hb Hb'
                  (or_intror (f_equal (default []) (lookup_empty "t"))))
      as Hrun1.
    pose proof (second_call_on_same_instance reject_duplicate accepted_frame
                  "t" fresh_world _ _ wf_fresh Hnd Hrun1) as Hsecond.
    assert (table_columns
              (after_success accepted_frame
                 [("id", Integer); ("ts", DateTime); ("amount", Float 23);
                  ("flag", Boolean)] "t" fresh_world) (Some "t") =
            [("id", Integer); ("ts", DateTime); ("amount", Float 23);
             ("flag", Boolean)]) as Hcols by (by vm_compute).
    rewrite Hcols in Hsecond. cbv beta iota in Hsecond.
    eexists. split; [exact Hrun1 | exact Hsecond].
Defined.

(** C4.  Where the library rejects a column of the same name, the second
    of two identical calls fails: the first call on a new instance returns
    the table with the column [id]; the second call on that instance, with
    the same frame and table name, raises [DuplicateColumnError] and
    returns no table. *)
Lemma second_call_counterexample :
  (get_table_schema reject_duplicate id_frame "t" fresh_world).2 =
    Ok (Some "t") /\
  table_columns (get_table_schema reject_duplicate id_frame "t" fresh_world).1
    (Some "t") = [("id", Integer)] /\
  (get_table_schema reject_duplicate id_frame "t"
     (get_table_schema reject_duplicate id_frame "t" fresh_world).1).2 =
    Raise (DuplicateColumnError "id" "t") /\
  ~ (exists w2 r2,
       get_table_schema reject_duplicate id_frame "t"
         (get_table_schema reject_duplicate id_frame "t" fresh_world).1 =
         (w2, Ok r2) /\
       table_columns w2 r2 =
         table_columns
           (get_table_schema reject_duplicate id_frame "t" fresh_world).1
           (Some "t")).
Proof.
  assert ((get_table_schema reject_duplicate id_frame "t"
             (get_table_schema reject_duplicate id_frame "t"
                fresh_world).1).2 =
          Raise (DuplicateColumnError "id" "t")) as Hraise
    by (by vm_compute).
  split; [by vm_compute|]. split; [by vm_compute|]. split; [exact Hraise|].
  intros (w2 & r2 & Hrun & _). rewrite Hrun in Hraise. discriminate Hraise.
Qed.

(** ** Calls with different frames on the same instance *)

(** The loop over the type map and the library calls around it leave the
    two dictionaries of the instance alone. *)
Lemma create_table_schema_keeps_maps p name w :
  column_type_map (self (_create_table_schema p name w).1) =
    column_type_map (self w) /\
  pd_api_dtype_map (self (_create_table_schema p name w).1) =
    pd_api_dtype_map (self w).
Proof.
  assert (forall l w0,
            column_type_map
              (self (for_each l (append_mapped_column p) w0).1) =
              column_type_map (self w0) /\
            pd_api_dtype_map
              (self (for_each l (append_mapped_column p) w0).1) =
              pd_api_dtype_map (self w0)) as Hloop.
  { induction l as [|k l IH]; intros w0; [done|].
    simpl. unfold bind.
    assert (column_type_map (self (append_mapped_column p k w0).1) =
              column_type_map (self w0) /\
            pd_api_dtype_map (self (append_mapped_column p k w0).1) =
              pd_api_dtype_map (self w0)) as [Hk Hk'].
    { unfold append_mapped_column, append_column, bind, get_self,
        modify_self. simpl.
      repeat case_match; simplify_eq; done. }
    destruct (append_mapped_column p k w0) as [w0' [[]|e]]; simpl in *;
      [|done].
    destruct (IH w0') as [-> ->]. done. }
  unfold _create_table_schema, Table, bind, get_self, modify_self.
  destruct (metadata (self w) !! name); simpl;
    match goal with
    | |- context [for_each ?l _ ?w0] => destruct (Hloop l w0) as [-> ->]
    end; done.
Qed.

(** No call removes a key from [column_type_map] or from
    [pd_api_dtype_map], whatever the world, the frame and the outcome of
    the call. *)
Lemma maps_never_cleared p df name w :
  dict_keys (column_type_map (self w))
    `prefix_of`
  dict_keys (column_type_map (self (get_table_schema p df name w).1)) /\
  dict_keys (pd_api_dtype_map (self w))
    `prefix_of`
  dict_keys (pd_api_dtype_map (self (get_table_schema p df name w).1)).
Proof.
  remember (get_table_schema p df name w).1 as w' eqn:Hw'.
  unfold get_table_schema in Hw'. unfold bind at 1 2 3 in Hw'.
  unfold modify_self at 1 2 in Hw'. simpl in Hw'.
  pose proof (infer_loop_steady (df_columns df)
                {| self := set_table_name name (set_data df (self w));
                   stdout := stdout w |}) as (_ & Hpre & Hpre' & _).
  simpl in Hpre, Hpre'.
  destruct (for_each (df_columns df) infer_and_store _) as [wA [[]|e]];
    simpl in Hpre, Hpre', Hw'; [|by subst w'].
  destruct (create_table_schema_keeps_maps p name wA) as [Hsame Hsame'].
  unfold bind in Hw'.
  destruct (_create_table_schema p name wA) as [wB [[]|e]];
    simpl in Hsame, Hsame', Hw'; subst w'; by rewrite Hsame, Hsame'.
Qed.

(** C10.  Two calls in a row on one instance, the first on a new instance,
    both returning: the second call has kept every key that the first left
    in [column_type_map] and [pd_api_dtype_map], which then have for
    keys the labels of the first frame followed by the labels that only
    the second frame has; each label has the type and the kind of its
    column in the second frame when it is there, and of its column in the
    first frame otherwise; and the table returned by the second call has
    exactly the entries of [column_type_map] for columns, so the columns
    of the first frame too. *)
Theorem maps_accumulate_across_calls p df1 name1 df2 name2 w w1 r1 w2 r2 :
  self w = fresh_instance ->
  NoDup (df_columns df1) ->
  NoDup (df_columns df2) ->
  get_table_schema p df1 name1 w = (w1, Ok r1) ->
  get_table_schema p df2 name2 w1 = (w2, Ok r2) ->
  let seen :=
    (df_columns df1 ++
     filter (fun c => c ∉ df_columns df1) (df_columns df2))%list in
  dict_keys (column_type_map (self w2)) = seen /\
  dict_keys (pd_api_dtype_map (self w2)) = seen /\
  (forall c col,
     getitem df2 c = Some col \/
     (getitem df2 c = None /\ getitem df1 c = Some col) ->
     exists ty,
       classify col = Ok ty /\
       dict_get c (column_type_map (self w2)) = Some ty /\
       dict_get c (pd_api_dtype_map (self w2)) = Some (infer_dtype col)) /\
  table_columns w2 r2 = column_type_map (self w2) /\
  (forall c, c ∈ df_columns df1 -> c ∈ dict_keys (table_columns w2 r2)) /\
  dict_keys (column_type_map (self w1))
    `prefix_of` dict_keys (column_type_map (self w2)) /\
  dict_keys (pd_api_dtype_map (self w1))
    `prefix_of` dict_keys (pd_api_dtype_map (self w2)).
Proof.
  intros Hfresh Hnd1 Hnd2 Hrun1 Hrun2 seen.
  pose proof (maps_never_cleared p df2 name2 w1) as Hkept.
  rewrite Hrun2 in Hkept. simpl in Hkept.
  assert (wf (self w)) as Hwf by (rewrite Hfresh; apply wf_fresh).
  destruct (get_table_schema_returns p df1 name1 w w1 r1 Hwf Hnd1 Hrun1)
    as (tys1 & Hty1 & _ & Hw1 & _).
  assert (wf (self w1)) as Hwf1 by (subst w1; by apply wf_after_success).
  destruct (table_is_type_map p df2 name2 w1 w2 r2 Hwf1 Hnd2 Hrun2)
    as (_ & _ & Htable).
  destruct (get_table_schema_returns p df2 name2 w1 w2 r2 Hwf1 Hnd2 Hrun2)
    as (tys2 & Hty2 & _ & Hw2 & _).
  pose proof (typed_as_keys df1 tys1 Hty1) as Hk1.
  pose proof (typed_as_keys df2 tys2 Hty2) as Hk2.
  assert (NoDup (dict_keys tys1)) as Hndt1 by (by rewrite Hk1).
  assert (NoDup (dict_keys tys2)) as Hndt2 by (by rewrite Hk2).
  assert (column_type_map (self w2) = dict_update tys1 tys2) as Hctm.
  { subst w2 w1. simpl. rewrite Hfresh. simpl.
    by rewrite (dict_update_absent [] tys1). }
  assert (pd_api_dtype_map (self w2) =
          dict_update (sniffed_kinds df1) (sniffed_kinds df2)) as Hpdm.
  { subst w2 w1. simpl. rewrite Hfresh. simpl.
    rewrite (dict_update_absent [] (sniffed_kinds df1)); [done|].
    simpl. by rewrite sniffed_kinds_keys. }
  assert (dict_keys (column_type_map (self w2)) = seen) as Hseen.
  { rewrite Hctm, dict_keys_update by done. by rewrite Hk1, Hk2. }
  split; [done|]. split.
  { rewrite Hpdm, dict_keys_update by (by rewrite sniffed_kinds_keys).
    by rewrite !sniffed_kinds_keys. }
  split.
  { intros c col Hc.
    rewrite Hctm, Hpdm.
    rewrite !dict_get_update by (by rewrite ?sniffed_kinds_keys).
    rewrite !sniffed_kinds_get.
    pose proof (typed_as_get df1 tys1 c Hty1) as H1.
    pose proof (typed_as_get df2 tys2 c Hty2) as H2.
    destruct Hc as [Hc2 | [Hc2 Hc1]].
    - rewrite Hc2 in H2 |- *. destruct H2 as (ty & Hty & ->).
      by exists ty.
    - rewrite Hc2 in H2 |- *. rewrite Hc1 in H1 |- *. rewrite H2.
      destruct H1 as (ty & Hty & ->). by exists ty. }
  split; [done|]. split; [|done].
  intros c Hc. rewrite Htable, Hseen. unfold seen.
  apply elem_of_app. by left.
Qed.

Lemma maps_accumulate_across_calls_witness :
  exists w1 w2,
    get_table_schema reject_duplicate accepted_frame "first" fresh_world =
      (w1, Ok (Some "first")) /\
    get_table_schema reject_duplicate later_frame "second" w1 =
      (w2, Ok (Some "second")) /\
    dict_keys (table_columns w2 (Some "second")) =
      ["id"; "ts"; "amount"; "flag"; "note"].
Proof.
  assert (NoDup (df_columns accepted_frame)) as Hnd1
    by (apply (bool_decide_unpack _); by vm_compute).
  assert (NoDup (df_columns later_frame)) as Hnd2
    by (apply (bool_decide_unpack _); by vm_compute).
  assert (typed_as accepted_frame
            [("id", Integer); ("ts", DateTime); ("amount", Float 23);
             ("flag", Boolean)]) as Hty1
    by (repeat constructor).
  assert (typed_as later_frame [("amount", Float 53); ("note", Text)]) as Hty2
    by (repeat constructor).
  assert (EmptyString ∉ df_columns accepted_frame) as Hb1
    by (apply (bool_decide_unpack _); by vm_compute).
  assert (EmptyString ∉ df_columns later_frame) as Hb2
    by (apply (bool_decide_unpack _); by vm_compute).
  pose proof (get_table_schema_ok reject_duplicate accepted_frame _ "first"
                fresh_world wf_fresh Hnd1 Hty1 (not_elem_of_nil _) Hb1
                (or_intror (f_equal (default []) (lookup_empty "first"))))
    as Hrun1.
  pose proof (wf_after_success accepted_frame
                [("id", Integer); ("ts", DateTime); ("amount", Float 23);
                 ("flag", Boolean)] "first" fresh_world wf_fresh) as Hwf1.
  assert (default [] (metadata (self (after_success accepted_frame
            [("id", Integer); ("ts", DateTime); ("amount", Float 23);
             ("flag", Boolean)] "first" fresh_world)) !! "second") = [])
    as Hnone by (by vm_compute).
  assert (EmptyString ∉ dict_keys (column_type_map (self (after_success
            accepted_frame
            [("id", Integer); ("ts", DateTime); ("amount", Float 23);
             ("flag", Boolean)] "first" fresh_world)))) as Hb
    by (apply (bool_decide_unpack _); by vm_compute).
  pose proof (get_table_schema_ok reject_duplicate later_frame _ "second"
                _ Hwf1 Hnd2 Hty2 Hb Hb2 (or_intror Hnone)) as Hrun2.
  destruct (maps_accumulate_across_calls reject_duplicate
              accepted_frame "first" later_frame "second"
              fresh_world _ _ _ _ eq_refl Hnd1 Hnd2 Hrun1 Hrun2)
    as (Hkeys & _ & _ & Htable & _).
  eexists. eexists. split; [exact Hrun1|]. split; [exact Hrun2|].
  rewrite Htable, Hkeys. by vm_compute.
Defined.

(** * Further properties of the code *)

(** ** The classifier on its own *)

Lemma warnings_timedelta_only col :
  warnings col = if is_timedelta col then [timedelta_warning] else [].
Proof.
  unfold warnings, is_timedelta, match_pd_api_type.
  destruct (String.eqb_spec (infer_dtype col) "timedelta64") as [->|Hne];
    [done|].
  apply String.eqb_neq in Hne.
  repeat case_match; simpl; try done; congruence.
Qed.

(** X1.  Line 85 runs before the [match]: whether the classifier answers a
    type or raises, the kind it sniffed is recorded under the column's
    name in [pd_api_dtype_map] and the other keys keep their values; the
    type map, the data, the table name, the table held and the registered
    tables are untouched; and nothing is printed unless the kind is
    [timedelta64]. *)
Theorem classifier_records_kind w df colname col :
  working_on df w ->
  getitem df colname = Some col ->
  dict_get colname
    (pd_api_dtype_map (self (_infer_sqlalchemy_dtype colname w).1)) =
    Some (infer_dtype col) /\
  (forall c, c <> colname ->
     dict_get c (pd_api_dtype_map (self (_infer_sqlalchemy_dtype colname w).1)) =
     dict_get c (pd_api_dtype_map (self w))) /\
  column_type_map (self (_infer_sqlalchemy_dtype colname w).1) =
    column_type_map (self w) /\
  builder_fields_kept w (_infer_sqlalchemy_dtype colname w).1 /\
  (infer_dtype col <> "timedelta64" ->
   stdout (_infer_sqlalchemy_dtype colname w).1 = stdout w).
Proof.
  intros Hdf Hcol. rewrite (infer_run w df colname col Hdf Hcol). simpl.
  split; [by rewrite dict_get_set, String.eqb_refl|].
  split.
  { intros c Hc. rewrite dict_get_set.
    by rewrite (proj2 (String.eqb_neq colname c)). }
  split; [done|]. split; [done|].
  intros Hk. rewrite warnings_timedelta_only. unfold is_timedelta.
  rewrite (proj2 (String.eqb_neq _ _) Hk). apply app_nil_r.
Qed.

Lemma classifier_records_kind_witness :
  dict_get "big"
    (pd_api_dtype_map (self (_infer_sqlalchemy_dtype "big" sample_world).1)) =
    Some "integer" /\
  column_type_map (self (_infer_sqlalchemy_dtype "big" sample_world).1) = [].
Proof.
  destruct (classifier_records_kind sample_world sample_frame "big"
              (series "integer" "UInt64") eq_refl eq_refl)
    as (Hkind & _ & Hmap & _).
  split; [exact Hkind | exact Hmap].
Defined.

(** X2.  Asked for a label that the frame does not have, the classifier
    raises [KeyError] for that label at line 83 and changes nothing: no
    kind is recorded and nothing is printed. *)
Theorem classifier_missing_column w df colname :
  working_on df w ->
  colname ∉ df_columns df ->
  _infer_sqlalchemy_dtype colname w = (w, Raise (KeyError colname)).
Proof.
  intros Hdf Hnin. unfold working_on in Hdf.
  apply dict_get_None in Hnin.
  unfold _infer_sqlalchemy_dtype, self_data_getitem, bind, get_self, getitem.
  by rewrite Hdf, Hnin.
Qed.

Lemma classifier_missing_column_witness :
  _infer_sqlalchemy_dtype "price" sample_world =
    (sample_world, Raise (KeyError "price")).
Proof.
  apply (classifier_missing_column sample_world sample_frame "price" eq_refl).
  apply (bool_decide_unpack _). by vm_compute.
Defined.

(** X3.  Lines 111-115 lower-case the dtype name before every comparison:
    two integer columns whose dtype names differ only in the case of their
    letters get the same answer, so pandas' nullable [Int8] ... [UInt64]
    are classified as [int8] ... [uint64] are. *)
Theorem integer_dtype_case_insensitive col1 col2 :
  infer_dtype col1 = "integer" ->
  infer_dtype col2 = "integer" ->
  lower (dtype_name col1) = lower (dtype_name col2) ->
  classify col1 = classify col2.
Proof.
  intros H1 H2 Hl.
  by rewrite (classify_integer col1 H1), (classify_integer col2 H2), Hl.
Qed.

Lemma integer_dtype_case_insensitive_witness :
  classify (series "integer" "UInt64") = classify (series "integer" "uint64").
Proof.
  apply integer_dtype_case_insensitive; reflexivity.
Defined.

(** ** What a call leaves behind *)

(** X4.  Lines 46-47 run before anything can fail: after a call, whether
    it returned or raised, the instance has the frame and the table name
    of that call for [data] and [table_name]. *)
Theorem last_call_is_retained p df name w :
  data (self (get_table_schema p df name w).1) = Some df /\
  table_name (self (get_table_schema p df name w).1) = Some name.
Proof.
  remember (get_table_schema p df name w).1 as w' eqn:Hw'.
  unfold get_table_schema in Hw'. unfold bind at 1 2 3 in Hw'.
  unfold modify_self at 1 2 in Hw'. simpl in Hw'.
  pose proof (infer_loop_kept (df_columns df)
                {| self := set_table_name name (set_data df (self w));
                   stdout := stdout w |}) as (Hd & Htn & _ & _).
  simpl in Hd, Htn.
  destruct (for_each (df_columns df) infer_and_store _) as [wA [[]|e]];
    simpl in Hd, Htn, Hw'; [|by subst w'].
  destruct (create_table_schema_frame p name wA) as (_ & Hd' & Htn' & _).
  unfold bind in Hw'.
  destruct (_create_table_schema p name wA) as [wB [[]|e]];
    simpl in Hd', Htn', Hw'; subst w'; simpl; by rewrite ?Hd', ?Htn'.
Qed.

(** X5.  A call touches no table but the one registered under its own
    table name: whatever the frame and the outcome, the tables that the
    instance's [MetaData] keeps under other names have the columns they
    had. *)
Theorem other_tables_untouched p df name w n :
  n <> name ->
  metadata (self (get_table_schema p df name w).1) !! n =
    metadata (self w) !! n.
Proof.
  intros Hn.
  remember (get_table_schema p df name w).1 as w' eqn:Hw'.
  unfold get_table_schema in Hw'. unfold bind at 1 2 3 in Hw'.
  unfold modify_self at 1 2 in Hw'. simpl in Hw'.
  pose proof (infer_loop_kept (df_columns df)
                {| self := set_table_name name (set_data df (self w));
                   stdout := stdout w |}) as (_ & _ & _ & Hmd).
  simpl in Hmd.
  destruct (for_each (df_columns df) infer_and_store _) as [wA [[]|e]];
    simpl in Hmd, Hw'; [|subst w'; by rewrite Hmd].
  destruct (create_table_schema_frame p name wA) as (_ & _ & _ & _ & Hmd').
  specialize (Hmd' n Hn).
  unfold bind in Hw'.
  destruct (_create_table_schema p name wA) as [wB [[]|e]];
    simpl in Hmd', Hw'; subst w'; simpl; by rewrite Hmd', Hmd.
Qed.

Lemma other_tables_untouched_witness :
  metadata
    (self (get_table_schema replace_existing later_frame "second"
             (get_table_schema replace_existing accepted_frame "first"
                fresh_world).1).1) !! "first" =
  metadata
    (self (get_table_schema replace_existing accepted_frame "first"
             fresh_world).1) !! "first".
Proof.
  apply other_tables_untouched. discriminate.
Defined.

(** ** A call that raises *)

Lemma sniffed_kinds_app l1 l2 :
  sniffed_kinds (l1 ++ l2)%list = (sniffed_kinds l1 ++ sniffed_kinds l2)%list.
Proof. apply map_app. Qed.

(** X6.  The loop of lines 49-50 stops at the first column that the
    classifier rejects: the call raises that column's exception; the
    columns before it have their types in [column_type_map] and their
    kinds in [pd_api_dtype_map]; the rejected column has its kind recorded
    but no type; the columns after it are not looked at; and the table
    held and the registered tables are as before the call. *)
Theorem first_rejected_column_decides p pre c col post tys e name w :
  NoDup (df_columns (pre ++ (c, col) :: post)%list) ->
  typed_as pre tys ->
  classify col = Raise e ->
  let run := get_table_schema p (pre ++ (c, col) :: post)%list name w in
  run.2 = Raise e /\
  column_type_map (self run.1) =
    dict_update (column_type_map (self w)) tys /\
  pd_api_dtype_map (self run.1) =
    dict_update (pd_api_dtype_map (self w))
      (sniffed_kinds (pre ++ [(c, col)])%list) /\
  stdout run.1 =
    (stdout w ++ concat (map (fun x => warnings x.2) pre) ++ warnings col)%list /\
  table_schema (self run.1) = table_schema (self w) /\
  metadata (self run.1) = metadata (self w).
Proof.
  intros Hnd Hty He run. subst run.
  set (df := (pre ++ (c, col) :: post)%list) in *.
  assert (forall x, x ∈ df -> getitem df x.1 = Some x.2) as Hget
    by (by apply getitem_own_columns).
  assert (get_table_schema p df name w =
          ({| self :=
                set_pd_api_dtype_map
                  (dict_update (pd_api_dtype_map (self w))
                     (sniffed_kinds (pre ++ [(c, col)])%list))
                  (set_column_type_map
                     (dict_update (column_type_map (self w)) tys)
                     (set_table_name name (set_data df (self w))));
              stdout :=
                (stdout w ++ concat (map (fun x => warnings x.2) pre) ++
                 warnings col)%list |},
           Raise e)) as ->.
  { unfold get_table_schema. unfold bind at 1 2 3. unfold modify_self at 1 2.
    simpl.
    assert (df_columns df = (dict_keys pre ++ c :: dict_keys post)%list) as ->.
    { unfold df_columns, df. by rewrite dict_keys_app, dict_keys_cons. }
    rewrite for_each_app. unfold bind at 1.
    rewrite (infer_loop_accept df pre tys); [|done| |done].
    2:{ intros x Hx. apply Hget. unfold df. apply elem_of_app. by left. }
    simpl. unfold bind at 1.
    rewrite (infer_and_store_reject df _ c col e); [|done| |done].
    2:{ apply (Hget (c, col)). unfold df. apply elem_of_app. right. left. }
    simpl. rewrite sniffed_kinds_app, dict_update_app. simpl.
    by rewrite <- app_assoc. }
  done.
Qed.

Lemma first_rejected_column_decides_witness :
  (get_table_schema reject_duplicate
     ([("id", series "integer" "int32")] ++
      ("z", series "complex" "complex128") ::
      [("flag", series "boolean" "bool")])%list "t" fresh_world).2 =
    Raise (ValueError "Complex datatypes not supported") /\
  column_type_map
    (self (get_table_schema reject_duplicate
             ([("id", series "integer" "int32")] ++
              ("z", series "complex" "complex128") ::
              [("flag", series "boolean" "bool")])%list "t" fresh_world).1) =
    [("id", Integer)].
Proof.
  assert (NoDup (df_columns
            ([("id", series "integer" "int32")] ++
             ("z", series "complex" "complex128") ::
             [("flag", series "boolean" "bool")])%list)) as Hnd
    by (apply (bool_decide_unpack _); by vm_compute).
  assert (typed_as [("id", series "integer" "int32")] [("id", Integer)])
    as Hty by (repeat constructor).
  destruct (first_rejected_column_decides reject_duplicate
              [("id", series "integer" "int32")]
              "z" (series "complex" "complex128")
              [("flag", series "boolean" "bool")]
              [("id", Integer)]
              (ValueError "Complex datatypes not supported")
              "t" fresh_world Hnd Hty eq_refl)
    as (Hraise & Hmap & _).
  split; [exact Hraise | exact Hmap].
Defined.

(** The world [used_world] is the one that a first call leaves. *)
Lemma used_world_reached p :
  get_table_schema p accepted_frame "first" fresh_world =
    (used_world, Ok (Some "first")).
Proof.
  apply get_table_schema_ok.
  - apply wf_fresh.
  - apply (bool_decide_unpack _). by vm_compute.
  - repeat constructor.
  - apply not_elem_of_nil.
  - apply (bool_decide_unpack _). by vm_compute.
  - right. simpl. unfold MetaData. by rewrite lookup_empty.
Qed.

Lemma wf_used_world : wf (self used_world).
Proof. apply wf_after_success, wf_fresh. Qed.

Lemma used_world_no_blank :
  EmptyString ∉ dict_keys (column_type_map (self used_world)).
Proof. apply (bool_decide_unpack _). by vm_compute. Qed.

Lemma later_frame_facts :
  NoDup (df_columns later_frame) /\
  typed_as later_frame [("amount", Float 53); ("note", Text)] /\
  (EmptyString ∉ df_columns later_frame).
Proof.
  split; [apply (bool_decide_unpack _); by vm_compute|].
  split; [repeat constructor|].
  apply (bool_decide_unpack _). by vm_compute.
Qed.

(** X7.  Where [append_column] rejects a column of the same name, the
    classifier accepts every column of the frame and no label is blank:
    the call returns unless the table registered under the table name
    already has a column, and then it raises [DuplicateColumnError] for
    that table's first column, leaves every registered table as it was,
    yet has made the instance hold that table (line 56) and has updated
    [column_type_map]. *)
Theorem duplicate_error_when_table_has_columns df tys name w :
  wf (self w) ->
  NoDup (df_columns df) ->
  typed_as df tys ->
  EmptyString ∉ dict_keys (column_type_map (self w)) ->
  EmptyString ∉ df_columns df ->
  let run := get_table_schema reject_duplicate df name w in
  match metadata (self w) !! name with
  | Some (c :: _) =>
      run.2 = Raise (DuplicateColumnError c.1 name) /\
      metadata (self run.1) = metadata (self w) /\
      table_schema (self run.1) = Some name /\
      column_type_map (self run.1) =
        dict_update (column_type_map (self w)) tys
  | _ =>
      run.2 = Ok (Some name) /\
      table_columns run.1 (Some name) =
        dict_update (column_type_map (self w)) tys
  end.
Proof.
  intros Hwf Hnd Hty Hb Hb' run. subst run.
  destruct (metadata (self w) !! name) as [[|c cols]|] eqn:Hmd.
  - rewrite (get_table_schema_ok reject_duplicate df tys name w);
      [|done|done|done|done|done|right; by rewrite Hmd].
    simpl. by rewrite lookup_insert_eq.
  - by rewrite (get_table_schema_duplicate_run df tys name w c cols).
  - rewrite (get_table_schema_ok reject_duplicate df tys name w);
      [|done|done|done|done|done|right; by rewrite Hmd].
    simpl. by rewrite lookup_insert_eq.
Qed.

Lemma duplicate_error_when_table_has_columns_witness :
  (get_table_schema reject_duplicate later_frame "first" used_world).2 =
    Raise (DuplicateColumnError "id" "first") /\
  (get_table_schema reject_duplicate later_frame "second" used_world).2 =
    Ok (Some "second").
Proof.
  destruct later_frame_facts as (Hnd & Hty & Hb').
  split.
  - pose proof (duplicate_error_when_table_has_columns later_frame _ "first"
                  used_world wf_used_world Hnd Hty used_world_no_blank Hb')
      as Hrun.
    assert (metadata (self used_world) !! "first" =
            Some [("id", Integer); ("ts", DateTime); ("amount", Float 23);
                  ("flag", Boolean)]) as Hmd by (by vm_compute).
    cbv zeta in Hrun. rewrite Hmd in Hrun. exact (proj1 Hrun).
  - pose proof (duplicate_error_when_table_has_columns later_frame _ "second"
                  used_world wf_used_world Hnd Hty used_world_no_blank Hb')
      as Hrun.
    assert (metadata (self used_world) !! "second" = None) as Hmd
      by (by vm_compute).
    cbv zeta in Hrun. rewrite Hmd in Hrun. exact (proj1 Hrun).
Defined.

(** ** An instance that is used again and again *)

Lemma wf_run_calls p calls w : wf (self w) -> wf (self (run_calls p calls w)).
Proof.
  revert w. induction calls as [|[df name] calls IH]; intros w Hwf; [done|].
  simpl. by apply IH, wf_get_table_schema.
Qed.

(** X8.  Whatever calls have been made on an instance since it was new,
    with whatever frames and outcomes: the keys of [column_type_map] are
    distinct, and every table registered with the instance's [MetaData]
    has distinct column names, which are the first keys of
    [column_type_map] in the same order. *)
Theorem tables_follow_the_type_map p calls :
  NoDup (dict_keys (column_type_map (self (run_calls p calls fresh_world))))
  /\
  forall t cols,
    metadata (self (run_calls p calls fresh_world)) !! t = Some cols ->
    NoDup (dict_keys cols) /\
    dict_keys cols
      `prefix_of`
    dict_keys (column_type_map (self (run_calls p calls fresh_world))).
Proof.
  destruct (wf_run_calls p calls fresh_world wf_fresh) as [Hnd Hpre].
  split; [done|]. intros t cols Hmd.
  specialize (Hpre t cols Hmd). split; [|done].
  destruct Hpre as [rest Hrest]. rewrite Hrest in Hnd.
  by apply NoDup_app in Hnd as [? _].
Qed.

Lemma returned_table_facts p df name w w' r :
  wf (self w) ->
  NoDup (df_columns df) ->
  get_table_schema p df name w = (w', Ok r) ->
  r = Some name /\
  NoDup (dict_keys (table_columns w' r)) /\
  dict_keys (table_columns w' r) =
    (dict_keys (column_type_map (self w)) ++
     filter (fun c => c ∉ dict_keys (column_type_map (self w)))
       (df_columns df))%list /\
  (forall c col,
     getitem df c = Some col ->
     exists ty,
       classify col = Ok ty /\ dict_get c (table_columns w' r) = Some ty) /\
  (forall c,
     c ∉ df_columns df ->
     dict_get c (table_columns w' r) = dict_get c (column_type_map (self w))).
Proof.
  intros Hwf Hnd Hrun.
  destruct (table_is_type_map p df name w w' r Hwf Hnd Hrun)
    as (Hr & _ & Hcols).
  destruct (get_table_schema_returns p df name w w' r Hwf Hnd Hrun)
    as (tys & Hty & _ & Hw' & _).
  pose proof (typed_as_keys df tys Hty) as Hk.
  assert (NoDup (dict_keys tys)) as Hndt by (by rewrite Hk).
  assert (column_type_map (self w') =
          dict_update (column_type_map (self w)) tys) as Hmap
    by (by subst w').
  rewrite Hcols, Hmap.
  split; [done|]. split.
  { apply dict_keys_update_NoDup. by destruct Hwf. }
  split.
  { rewrite dict_keys_update by done. by rewrite Hk. }
  split.
  - intros c col Hc. rewrite dict_get_update by done.
    pose proof (typed_as_get df tys c Hty) as Hget. rewrite Hc in Hget.
    destruct Hget as (ty & Hcl & ->). by exists ty.
  - intros c Hc. rewrite dict_get_update by done.
    apply dict_get_None in Hc.
    pose proof (typed_as_get df tys c Hty) as Hget.
    unfold getitem in Hget. rewrite Hc in Hget. by rewrite Hget.
Qed.

(** X9.  A call that returns on an instance that has been used before:
    the table it returns has distinct column names; they are the keys
    that [column_type_map] had before the call, followed by the labels of
    the frame that were not among them, in the frame's order; every column
    of the frame is there under its label with the classifier's type; and
    a label that the frame does not have keeps the type it had. *)
Theorem returned_table_on_used_instance p df name w w' r :
  wf (self w) ->
  NoDup (df_columns df) ->
  get_table_schema p df name w = (w', Ok r) ->
  r = Some name /\
  NoDup (dict_keys (table_columns w' r)) /\
  dict_keys (table_columns w' r) =
    (dict_keys (column_type_map (self w)) ++
     filter (fun c => c ∉ dict_keys (column_type_map (self w)))
       (df_columns df))%list /\
  (forall c col,
     getitem df c = Some col ->
     exists ty,
       classify col = Ok ty /\ dict_get c (table_columns w' r) = Some ty) /\
  (forall c,
     c ∉ df_columns df ->
     dict_get c (table_columns w' r) = dict_get c (column_type_map (self w))).
Proof. apply returned_table_facts. Qed.

Lemma returned_table_on_used_instance_witness :
  exists w',
    get_table_schema reject_duplicate later_frame "second" used_world =
      (w', Ok (Some "second")) /\
    dict_keys (table_columns w' (Some "second")) =
      ["id"; "ts"; "amount"; "flag"; "note"] /\
    dict_get "amount" (table_columns w' (Some "second")) = Some (Float 53) /\
    dict_get "id" (table_columns w' (Some "second")) = Some Integer.
Proof.
  destruct later_frame_facts as (Hnd & Hty & Hb').
  assert (default [] (metadata (self used_world) !! "second") = []) as Hnone
    by (by vm_compute).
  pose proof (get_table_schema_ok reject_duplicate later_frame _ "second"
                used_world wf_used_world Hnd Hty used_world_no_blank Hb'
                (or_intror Hnone)) as Hrun.
  destruct (returned_table_on_used_instance reject_duplicate later_frame
              "second" used_world _ _ wf_used_world Hnd Hrun)
    as (_ & _ & Hkeys & Hcols & Hold).
  eexists. split; [exact Hrun|]. split; [|split].
  - rewrite Hkeys. by vm_compute.
  - destruct (Hcols "amount" (series "floating" "float64") eq_refl)
      as (ty & Hty' & ->).
    f_equal. assert (Ok ty = Ok (Float 53)) as Heq
      by (rewrite <- Hty'; reflexivity).
    by inversion Heq.
  - rewrite Hold; [by vm_compute|].
    apply (bool_decide_unpack _). by vm_compute.
Defined.

Lemma warnings_concat l :
  concat (map (fun x : string * Series => warnings x.2) l) =
    replicate (length (filter (fun x => is_timedelta x.2 = true) l))
      timedelta_warning.
Proof.
  induction l as [|[c col] l IH]; [done|].
  simpl. rewrite IH, warnings_timedelta_only, filter_cons. simpl.
  destruct (is_timedelta col).
  - by rewrite decide_True.
  - by rewrite decide_False.
Qed.

(** X10.  A call that returns prints the line of line 101 once for each
    column of the frame sniffed as [timedelta64], and nothing else. *)
Theorem one_warning_per_timedelta_column p df name w w' r :
  wf (self w) ->
  NoDup (df_columns df) ->
  get_table_schema p df name w = (w', Ok r) ->
  stdout w' =
    (stdout w ++
     replicate (length (filter (fun x => is_timedelta x.2 = true) df))
       timedelta_warning)%list.
Proof.
  intros Hwf Hnd Hrun.
  destruct (get_table_schema_returns p df name w w' r Hwf Hnd Hrun)
    as (tys & _ & _ & -> & _).
  simpl. by rewrite warnings_concat.
Qed.

Lemma one_warning_per_timedelta_column_witness :
  exists w',
    get_table_schema reject_duplicate elapsed_frame "t" fresh_world =
      (w', Ok (Some "t")) /\
    stdout w' = [timedelta_warning; timedelta_warning].
Proof.
  assert (NoDup (df_columns elapsed_frame)) as Hnd
    by (apply (bool_decide_unpack _); by vm_compute).
  assert (typed_as elapsed_frame
            [("start", DateTime); ("took", BigInteger); ("flag", Boolean);
             ("wait", BigInteger)]) as Hty
    by (repeat constructor).
  assert (EmptyString ∉ df_columns elapsed_frame) as Hb'
    by (apply (bool_decide_unpack _); by vm_compute).
  pose proof (get_table_schema_ok reject_duplicate elapsed_frame _ "t"
                fresh_world wf_fresh Hnd Hty (not_elem_of_nil _) Hb'
                (or_intror (f_equal (default []) (lookup_empty "t"))))
    as Hrun.
  pose proof (one_warning_per_timedelta_column reject_duplicate
                elapsed_frame "t" fresh_world _ _ wf_fresh Hnd Hrun)
    as Hout.
  eexists. split; [exact Hrun | exact Hout].
Defined.

(** X12.  A call with a frame that has no column: it classifies nothing,
    prints nothing and leaves both dictionaries as they were; it returns
    whenever no key of [column_type_map] is blank and the library replaces
    same-named columns or the table registered under the name has no
    column; and the table it returns has for columns every entry of
    [column_type_map], so none on a new instance and the columns of all
    earlier frames on a used one. *)
Theorem empty_frame p name w :
  wf (self w) ->
  EmptyString ∉ dict_keys (column_type_map (self w)) ->
  p = replace_existing \/ default [] (metadata (self w) !! name) = [] ->
  exists w',
    get_table_schema p [] name w = (w', Ok (Some name)) /\
    table_columns w' (Some name) = column_type_map (self w) /\
    column_type_map (self w') = column_type_map (self w) /\
    pd_api_dtype_map (self w') = pd_api_dtype_map (self w) /\
    stdout w' = stdout w.
Proof.
  intros Hwf Hb Hp. eexists. split.
  - apply (get_table_schema_ok p [] [] name w Hwf);
      [constructor | constructor | done | apply not_elem_of_nil | done].
  - simpl. rewrite lookup_insert_eq. simpl. by rewrite app_nil_r.
Qed.

Lemma empty_frame_witness :
  (exists w',
     get_table_schema reject_duplicate [] "t" fresh_world =
       (w', Ok (Some "t")) /\
     table_columns w' (Some "t") = []) /\
  (exists w',
     get_table_schema reject_duplicate [] "second" used_world =
       (w', Ok (Some "second")) /\
     table_columns w' (Some "second") =
       [("id", Integer); ("ts", DateTime); ("amount", Float 23);
        ("flag", Boolean)]).
Proof.
  split.
  - destruct (empty_frame reject_duplicate "t" fresh_world wf_fresh
                (not_elem_of_nil _)
                (or_intror (f_equal (default []) (lookup_empty "t"))))
      as (w' & Hrun & Hcols & _).
    exists w'. split; [exact Hrun | exact Hcols].
  - assert (default [] (metadata (self used_world) !! "second") = [])
      as Hnone by (by vm_compute).
    destruct (empty_frame reject_duplicate "second" used_world wf_used_world
                used_world_no_blank (or_intror Hnone))
      as (w' & Hrun & Hcols & _).
    exists w'. split; [exact Hrun | exact Hcols].
Defined.

(** ** The remaining cases of the classifier *)

(** X13.  The [match] looks at the sniffed kind first: a column sniffed as
    [boolean], [date] or [time] gets Boolean, Date or Time whatever its
    dtype name and its time zone, so that the rejection of uint64 and the
    time-zone test never apply to it, and nothing is printed. *)
Theorem kinds_without_further_test w df colname col :
  working_on df w ->
  getitem df colname = Some col ->
  (infer_dtype col = "boolean" ->
   (_infer_sqlalchemy_dtype colname w).2 = Ok Boolean) /\
  (infer_dtype col = "date" ->
   (_infer_sqlalchemy_dtype colname w).2 = Ok Date) /\
  (infer_dtype col = "time" ->
   (_infer_sqlalchemy_dtype colname w).2 = Ok Time) /\
  (infer_dtype col ∈ ["boolean"; "date"; "time"] ->
   stdout (_infer_sqlalchemy_dtype colname w).1 = stdout w).
Proof.
  intros Hdf Hcol. rewrite (infer_run w df colname col Hdf Hcol). simpl.
  unfold classify, match_pd_api_type.
  repeat split.
  - by intros ->.
  - by intros ->.
  - by intros ->.
  - intros Hk. rewrite warnings_timedelta_only. unfold is_timedelta.
    repeat (apply elem_of_cons in Hk as [-> | Hk]; [by rewrite app_nil_r|]).
    by apply elem_of_nil in Hk.
Qed.

Lemma kinds_without_further_test_witness :
  (_infer_sqlalchemy_dtype "flag" sample_world).2 = Ok Boolean.
Proof.
  destruct (kinds_without_further_test sample_world sample_frame "flag"
              (series "boolean" "bool") eq_refl eq_refl) as (Hbool & _).
  apply Hbool. reflexivity.
Defined.

(** X14.  The types that the classifier can answer: whatever the column,
    an answer is one of the eleven values below; in particular a
    [TIMESTAMP] always has [timezone=True] and a [Float] has precision 23
    or 53. *)
Theorem classifier_range w df colname col ty :
  working_on df w ->
  getitem df colname = Some col ->
  (_infer_sqlalchemy_dtype colname w).2 = Ok ty ->
  ty ∈ [ TIMESTAMP true; DateTime; BigInteger; Float 23; Float 53;
         SmallInteger; Integer; Boolean; Date; Time; Text ].
Proof.
  intros Hdf Hcol. rewrite (infer_run w df colname col Hdf Hcol). simpl.
  unfold classify, match_pd_api_type.
  repeat case_match; simpl; intros [= <-];
    apply (bool_decide_unpack _); by vm_compute.
Qed.

Lemma classifier_range_witness :
  Float 23 ∈ [ TIMESTAMP true; DateTime; BigInteger; Float 23; Float 53;
               SmallInteger; Integer; Boolean; Date; Time; Text ].
Proof.
  apply (classifier_range sample_world sample_frame "amount"
           (series "floating" "float32") (Float 23) eq_refl eq_refl).
  reflexivity.
Defined.

(** ** A blank label *)

(** X15.  On a new instance, a frame with distinct labels, one of them
    blank, every column of which the classifier accepts: the call raises
    sqlalchemy's [ArgumentError] at line 59 and returns no table; by then
    [column_type_map] has a type for every column, the blank one included,
    and the table registered under the table name, which the instance now
    holds, has the columns that come before the blank label. *)
Theorem blank_label_is_refused p pre col post tys_pre ty tys_post name w :
  self w = fresh_instance ->
  NoDup (df_columns (pre ++ (EmptyString, col) :: post)%list) ->
  typed_as pre tys_pre ->
  classify col = Ok ty ->
  typed_as post tys_post ->
  let run :=
    get_table_schema p (pre ++ (EmptyString, col) :: post)%list name w in
  run.2 = Raise (ArgumentError blank_name) /\
  table_schema (self run.1) = Some name /\
  metadata (self run.1) !! name = Some tys_pre /\
  column_type_map (self run.1) =
    (tys_pre ++ (EmptyString, ty) :: tys_post)%list.
Proof.
  intros Hfresh Hnd Hpre Hcol Hpost run. subst run.
  set (df := (pre ++ (EmptyString, col) :: post)%list) in *.
  set (tys := (tys_pre ++ (EmptyString, ty) :: tys_post)%list).
  assert (typed_as df tys) as Hty.
  { apply Forall2_app; [done|]. by constructor. }
  assert (NoDup (dict_keys tys)) as Hndt
    by (by rewrite (typed_as_keys df tys Hty)).
  assert (NoDup (dict_keys tys_pre) /\ (EmptyString ∉ dict_keys tys_pre))
    as [Hndp Hblank].
  { pose proof Hndt as Hsplit. unfold tys in Hsplit.
    rewrite dict_keys_app, dict_keys_cons in Hsplit.
    apply NoDup_app in Hsplit as (? & Hdisj & _). split; [done|].
    intros Hin. apply (Hdisj _ Hin). left. }
  assert (get_table_schema p df name w =
          ({| self :=
                {| data := Some df;
                   column_type_map := tys;
                   pd_api_dtype_map := sniffed_kinds df;
                   table_name := Some name;
                   table_schema := Some name;
                   metadata := <[name := tys_pre]> MetaData |};
              stdout :=
                (stdout w ++ concat (map (fun x => warnings x.2) df))%list |},
           Raise (ArgumentError blank_name))) as Hrun.
  2:{ rewrite Hrun. simpl. by rewrite lookup_insert_eq. }
  unfold get_table_schema. unfold bind at 1 2 3. unfold modify_self at 1 2.
  simpl. rewrite (infer_loop_start df tys name w Hnd Hty).
  rewrite Hfresh. simpl.
  rewrite (dict_update_absent [] tys) by done.
  rewrite (dict_update_absent [] (sniffed_kinds df))
    by (simpl; by rewrite sniffed_kinds_keys).
  simpl. unfold bind at 1.
  unfold _create_table_schema, Table. unfold bind at 1 2. unfold get_self at 1.
  simpl. unfold MetaData at 1. rewrite lookup_empty.
  unfold bind, modify_self, get_self, ret. simpl.
  assert (dict_keys tys =
          (dict_keys tys_pre ++ EmptyString :: dict_keys tys_post)%list)
    as -> by (unfold tys; by rewrite dict_keys_app, dict_keys_cons).
  rewrite for_each_app. unfold bind at 1.
  rewrite (append_loop p tys_pre _ name []); simpl.
  - unfold bind.
    rewrite (append_mapped_column_blank p _ name ty); simpl.
    + rewrite insert_insert_eq.
      by rewrite (dict_update_absent [] tys_pre) by done.
    + done.
    + apply (dict_get_elem EmptyString ty tys Hndt).
      unfold tys. apply elem_of_app. right. left.
  - done.
  - apply lookup_insert_eq.
  - intros [k v] Hx. simpl. apply (dict_get_elem k v tys Hndt).
    unfold tys. apply elem_of_app. by left.
  - done.
  - by right.
Qed.

Lemma blank_label_is_refused_witness :
  (get_table_schema reject_duplicate
     ([("id", series "integer" "int32")] ++
      (EmptyString, series "integer" "int64") ::
      [("flag", series "boolean" "bool")])%list "t" fresh_world).2 =
    Raise (ArgumentError blank_name) /\
  metadata
    (self (get_table_schema reject_duplicate
             ([("id", series "integer" "int32")] ++
              (EmptyString, series "integer" "int64") ::
              [("flag", series "boolean" "bool")])%list "t" fresh_world).1)
    !! "t" = Some [("id", Integer)].
Proof.
  assert (NoDup (df_columns
            ([("id", series "integer" "int32")] ++
             (EmptyString, series "integer" "int64") ::
             [("flag", series "boolean" "bool")])%list)) as Hnd
    by (apply (bool_decide_unpack _); by vm_compute).
  assert (typed_as [("id", series "integer" "int32")] [("id", Integer)])
    as Hpre by (repeat constructor).
  assert (typed_as [("flag", series "boolean" "bool")] [("flag", Boolean)])
    as Hpost by (repeat constructor).
  destruct (blank_label_is_refused reject_duplicate
              [("id", series "integer" "int32")]
              (series "integer" "int64")
              [("flag", series "boolean" "bool")]
              [("id", Integer)] BigInteger [("flag", Boolean)]
              "t" fresh_world eq_refl Hnd Hpre eq_refl Hpost)
    as (Hraise & _ & Htable & _).
  split; [exact Hraise | exact Htable].
Defined.
